(** * fund_strategy_cn: the nine backtrader strategies, embedded and verified

    Every directory of the repository holds one [fund_strategy_cn.py] that
    defines a [bt.Strategy] subclass.  A strategy owns a few instance fields
    ([order], [strategy_phase], [historical_low], [last_sell_price],
    [last_investment_month]) and two callbacks: [notify_order], called by the
    framework when the status of an order changes, and [next], called once
    per bar.  The callbacks are embedded as pure functions from the fields
    before the call to the fields after it, together with the list of
    visible effects of the call (the lines printed and the orders handed to
    the broker), in the order in which the source produces them.

    Prices are Python floats, that is IEEE 754 binary64 numbers: they are
    embedded as Rocq's primitive floats, whose operations are the same.
    What the framework computes (the indicator lines, the position, the
    cash) is an input of each call. *)

From Stdlib Require Import Floats ZArith List Bool Lia.
Import ListNotations.

Set Warnings "-inexact-float".

(** ** The Python runtime *)

Module Py.

(** The one exception the strategies can raise. *)
Inductive Error : Type := ZeroDivisionError.

Inductive exc (A : Type) : Type :=
| Ok (a : A)
| Raise (e : Error).
Arguments Ok {A} a.
Arguments Raise {A} e.

Definition bind {A B : Type} (c : exc A) (k : A -> exc B) : exc B :=
  match c with
  | Ok a => k a
  | Raise e => Raise e
  end.

(** Comparisons of floats: [a > b] is [b < a], false on a NaN. *)
Definition lt (a b : float) : bool := (a <? b)%float.
Definition le (a b : float) : bool := (a <=? b)%float.
Definition gt (a b : float) : bool := (b <? a)%float.
Definition ge (a b : float) : bool := (b <=? a)%float.
Definition eq (a b : float) : bool := (a =? b)%float.

(** [a / b] on floats raises on a zero divisor (of either sign). *)
Definition truediv (a b : float) : exc float :=
  if (b =? 0)%float then Raise ZeroDivisionError else Ok (a / b)%float.

(** The builtin [min(a, b)]: the first argument unless the second is
    smaller. *)
Definition min (a b : float) : float := if lt b a then b else a.

(** [float('inf')] *)
Definition inf : float := infinity.

End Py.

Notation "x <- c ;; k" := (Py.bind c (fun x => k))
  (at level 61, c at next level, right associativity).

(** ** What a strategy sees of the framework *)

(** [datetime.date]: the strategies read [month] and [day]. *)
Record date : Type := mkDate { year : Z; month : Z; day : Z }.

(** [self.data] at index 0: [self.data.datetime.date()] and
    [self.data.close[0]]. *)
Record Data : Type := mkData { datetime : date; close : float }.

(** [self.position]: its truth value is [size != 0]. *)
Record Position : Type := mkPosition { size : float; price : float }.

Definition position_bool (p : Position) : bool := negb (Py.eq (size p) 0).

Definition flat : Position := mkPosition 0 0.

(** What [next] reads from the broker: [self.position] and
    [self.broker.get_cash()]. *)
Record Broker : Type := mkBroker { position : Position; get_cash : float }.

Inductive Status : Type :=
| Created | Submitted | Accepted | Partial | Completed
| Canceled | Expired | Margin | Rejected.

Inductive OrdType : Type := Buy | Sell.

(** [order.executed] *)
Record Executed : Type :=
  mkExecuted { ex_size : float; ex_price : float; ex_value : float; ex_comm : float }.

(** An order, as [notify_order] reads it.  [requested] is the [size=]
    argument the strategy gave, [None] when the sizer (for a buy) or the
    position (for a close) decides. *)
Record Order : Type :=
  mkOrder { status : Status; ordtype : OrdType; requested : option float;
            executed : Executed }.

Definition isbuy (o : Order) : bool :=
  match ordtype o with Buy => true | Sell => false end.

Definition issell (o : Order) : bool :=
  match ordtype o with Sell => true | Buy => false end.

Definition no_fill : Executed := mkExecuted 0 0 0 0.

(** [self.buy()] and [self.buy(size=x)]: the order handed to the broker.  A
    strategy stores what the call returns in [self.order]; the call is taken
    to return the order it creates.  What the sizer and the broker then do
    with the order is the framework's part, and reaches the strategy as a
    notification. *)
Definition buy (sz : option float) : Order := mkOrder Submitted Buy sz no_fill.

(** [self.close()]: the order that sells the whole (long) position. *)
Definition close_position : Order := mkOrder Submitted Sell None no_fill.

(** [status in [Submitted, Accepted]] *)
Definition pending (st : Status) : bool :=
  match st with Submitted | Accepted => true | _ => false end.

(** [status in [Completed]] *)
Definition completed (st : Status) : bool :=
  match st with Completed => true | _ => false end.

(** [status in [Canceled, Margin, Rejected]] *)
Definition failed (st : Status) : bool :=
  match st with Canceled | Margin | Rejected => true | _ => false end.

(** The visible effects of a callback. *)
Inductive Effect (M : Type) : Type :=
| Printed (m : M)
| Submit (o : Order).
Arguments Printed {M} m.
Arguments Submit {M} o.

(** The orders a callback handed to the broker. *)
Definition submitted {M : Type} (out : list (Effect M)) : list Order :=
  flat_map (fun e => match e with Submit o => [o] | Printed _ => [] end) out.

(** ** 10. Anchored-low strategy ([AnchorLowStrategy]) *)

Module AnchorLowStrategy.

Record Params : Type :=
  mkParams { initial_profit : float; cycle_profit : float;
             cycle_loss : float; rebuy_trigger : float }.

(** [INITIAL_PROFIT_TARGET], [CYCLE_PROFIT_TARGET], [CYCLE_STOP_LOSS],
    [REBUY_TRIGGER_FROM_LOW] *)
Definition default_params : Params := mkParams 0.15 0.10 0.05 0.03.

Record State : Type :=
  mkState { order : option Order; strategy_phase : Z; historical_low : float }.

(** [__init__] *)
Definition init : State := mkState None 1 Py.inf.

Definition set_order (s : State) (o : option Order) : State :=
  mkState o (strategy_phase s) (historical_low s).
Definition set_phase (s : State) (ph : Z) : State :=
  mkState (order s) ph (historical_low s).
Definition set_low (s : State) (x : float) : State :=
  mkState (order s) (strategy_phase s) x.

(** One constructor per [print] of the class. *)
Inductive Msg : Type :=
| PhaseOneDone
| BuyExecuted (d : date) (px : float)
| SellExecuted (d : date) (px : float)
| OrderFailed (st : Status)
| InitialBuy (d : date)
| InitialProfitReached (d : date) (target : float)
| NearHistoricalLow (d : date) (px low : float)
| CycleProfitReached (d : date) (target : float)
| CycleStopReached (d : date) (stop : float).

Definition notify_order (dt : Data) (o : Order) (s : State)
  : State * list (Effect Msg) :=
  if pending (status o) then (s, [])
  else if completed (status o) then
    let '(s1, out1) :=
      if issell o then
        if (strategy_phase s =? 1)%Z
        then (set_phase s 2, [Printed PhaseOneDone])
        else (s, [])
      else (s, []) in
    let out2 :=
      if isbuy o then [Printed (BuyExecuted (datetime dt) (ex_price (executed o)))]
      else if issell o then [Printed (SellExecuted (datetime dt) (ex_price (executed o)))]
      else [] in
    (set_order s1 None, out1 ++ out2)
  else if failed (status o) then
    (set_order s None, [Printed (OrderFailed (status o))])
  else (s, []).

Definition next (p : Params) (dt : Data) (b : Broker) (s : State)
  : State * list (Effect Msg) :=
  match order s with
  | Some _ => (s, [])
  | None =>
    let current_price := close dt in
    let s := if Py.lt current_price (historical_low s)
             then set_low s current_price else s in
    if (strategy_phase s =? 1)%Z then
      if negb (position_bool (position b)) then
        (set_order s (Some (buy None)),
         [Printed (InitialBuy (datetime dt)); Submit (buy None)])
      else
        let buy_price := price (position b) in
        let profit_target_price := (buy_price * (1 + initial_profit p))%float in
        if Py.ge current_price profit_target_price then
          (set_order s (Some close_position),
           [Printed (InitialProfitReached (datetime dt) profit_target_price);
            Submit close_position])
        else (s, [])
    else if (strategy_phase s =? 2)%Z then
      if negb (position_bool (position b)) then
        let rebuy_trigger_price :=
          (historical_low s * (1 + rebuy_trigger p))%float in
        if Py.le current_price rebuy_trigger_price then
          (set_order s (Some (buy None)),
           [Printed (NearHistoricalLow (datetime dt) current_price (historical_low s));
            Submit (buy None)])
        else (s, [])
      else
        let buy_price := price (position b) in
        let profit_target_price := (buy_price * (1 + cycle_profit p))%float in
        let stop_loss_price := (buy_price * (1 - cycle_loss p))%float in
        if Py.ge current_price profit_target_price then
          (set_order s (Some close_position),
           [Printed (CycleProfitReached (datetime dt) profit_target_price);
            Submit close_position])
        else if Py.le current_price stop_loss_price then
          (set_order s (Some close_position),
           [Printed (CycleStopReached (datetime dt) stop_loss_price);
            Submit close_position])
        else (s, [])
    else (s, [])
  end.

End AnchorLowStrategy.

(** ** 8. Fixed-percentage breakout strategy ([FixedPercentageStrategy]) *)

Module FixedPercentageStrategy.

Record Params : Type :=
  mkParams { profit_pct : float; loss_pct : float; rebuy_pct : float }.

(** [PROFIT_TARGET_PCT], [STOP_LOSS_PCT], [REBUY_TRIGGER_PCT] *)
Definition default_params : Params := mkParams 0.05 0.05 0.05.

Record State : Type :=
  mkState { order : option Order; last_sell_price : float }.

(** [__init__] *)
Definition init : State := mkState None 0.

Definition set_order (s : State) (o : option Order) : State :=
  mkState o (last_sell_price s).
Definition set_last_sell_price (s : State) (x : float) : State :=
  mkState (order s) x.

Inductive Msg : Type :=
| BuyExecuted (d : date) (e : Executed)
| SellExecuted (d : date) (e : Executed) (px : float)
| OrderFailed (st : Status)
| ProfitReached (d : date) (target : float)
| StopReached (d : date) (stop : float)
| InitialBuy (d : date)
| BrokeAbove (d : date) (up : float)
| BrokeBelow (d : date) (down : float).

Definition notify_order (dt : Data) (o : Order) (s : State)
  : State * list (Effect Msg) :=
  if pending (status o) then (s, [])
  else if completed (status o) then
    let '(s1, out) :=
      if isbuy o then
        (s, [Printed (BuyExecuted (datetime dt) (executed o))])
      else if issell o then
        let s1 := set_last_sell_price s (ex_price (executed o)) in
        (s1, [Printed (SellExecuted (datetime dt) (executed o) (last_sell_price s1))])
      else (s, []) in
    (set_order s1 None, out)
  else if failed (status o) then
    (set_order s None, [Printed (OrderFailed (status o))])
  else (s, []).

Definition next (p : Params) (dt : Data) (b : Broker) (s : State)
  : State * list (Effect Msg) :=
  match order s with
  | Some _ => (s, [])
  | None =>
    if position_bool (position b) then
      let buy_price := price (position b) in
      let current_price := close dt in
      let profit_target_price := (buy_price * (1 + profit_pct p))%float in
      let stop_loss_price := (buy_price * (1 - loss_pct p))%float in
      if Py.ge current_price profit_target_price then
        (set_order s (Some close_position),
         [Printed (ProfitReached (datetime dt) profit_target_price);
          Submit close_position])
      else if Py.le current_price stop_loss_price then
        (set_order s (Some close_position),
         [Printed (StopReached (datetime dt) stop_loss_price);
          Submit close_position])
      else (s, [])
    else
      if Py.eq (last_sell_price s) 0 then
        (set_order s (Some (buy None)),
         [Printed (InitialBuy (datetime dt)); Submit (buy None)])
      else
        let current_price := close dt in
        let rebuy_up_price := (last_sell_price s * (1 + rebuy_pct p))%float in
        let rebuy_down_price := (last_sell_price s * (1 - rebuy_pct p))%float in
        if Py.ge current_price rebuy_up_price then
          (set_order s (Some (buy None)),
           [Printed (BrokeAbove (datetime dt) rebuy_up_price); Submit (buy None)])
        else if Py.le current_price rebuy_down_price then
          (set_order s (Some (buy None)),
           [Printed (BrokeBelow (datetime dt) rebuy_down_price); Submit (buy None)])
        else (s, [])
  end.

End FixedPercentageStrategy.

(** ** 2. Periodic investment with take-profit ([SmartAciAndTakeProfitStrategy]) *)

Module SmartAciAndTakeProfitStrategy.

Record Params : Type :=
  mkParams { take_profit_pct : float; investment_day : Z;
             base_investment : float; ma_period : Z }.

(** [TAKE_PROFIT_PCT], [INVESTMENT_DAY], [BASE_INVESTMENT_AMOUNT],
    [BASELINE_MA_PERIOD] *)
Definition default_params : Params := mkParams 0.20 1 5000.0 20.

(** [self.ma_baseline[0]], computed by the framework. *)
Record Lines : Type := mkLines { ma_baseline : float }.

Record State : Type :=
  mkState { order : option Order; last_investment_month : Z }.

(** [__init__] *)
Definition init : State := mkState None (-1).

Definition set_order (s : State) (o : option Order) : State :=
  mkState o (last_investment_month s).
Definition set_last_investment_month (s : State) (m : Z) : State :=
  mkState (order s) m.

Inductive Msg : Type :=
| BuyExecuted (d : date) (e : Executed)
| SellExecuted (d : date) (e : Executed)
| OrderFailed (st : Status)
| TakeProfitReached (d : date) (target_pct profit_pct : float)
| BelowBaseline (d : date)
| AboveBaseline (d : date).

Definition notify_order (dt : Data) (o : Order) (s : State)
  : State * list (Effect Msg) :=
  if pending (status o) then (s, [])
  else if completed (status o) then
    (set_order s None,
     if isbuy o then [Printed (BuyExecuted (datetime dt) (executed o))]
     else if issell o then [Printed (SellExecuted (datetime dt) (executed o))]
     else [])
  else if failed (status o) then
    (set_order s None, [Printed (OrderFailed (status o))])
  else (s, []).

(** A line printed just before a division that raises is not kept: the
    exception ends the run. *)
Definition next (p : Params) (ln : Lines) (dt : Data) (b : Broker) (s : State)
  : Py.exc (State * list (Effect Msg)) :=
  match order s with
  | Some _ => Py.Ok (s, [])
  | None =>
    returned <-
      (if position_bool (position b) then
         profit_pct <- Py.truediv (close dt - price (position b))%float
                                  (price (position b)) ;;
         if Py.ge profit_pct (take_profit_pct p) then
           Py.Ok (Some (set_order s (Some close_position),
                        [Printed (TakeProfitReached (datetime dt)
                                    (take_profit_pct p * 100)%float
                                    (profit_pct * 100)%float);
                         Submit close_position]))
         else Py.Ok None
       else Py.Ok None) ;;
    match returned with
    | Some r => Py.Ok r
    | None =>
      if negb (position_bool (position b)) then
        let current_date := datetime dt in
        let current_month := month current_date in
        if negb (current_month =? last_investment_month s)%Z
           && (day current_date >=? investment_day p)%Z then
          let s := set_last_investment_month s current_month in
          if Py.lt (close dt) (ma_baseline ln) then
            size_to_buy <- Py.truediv (base_investment p) (close dt) ;;
            Py.Ok (set_order s (Some (buy (Some size_to_buy))),
                   [Printed (BelowBaseline current_date);
                    Submit (buy (Some size_to_buy))])
          else Py.Ok (s, [Printed (AboveBaseline current_date)])
        else Py.Ok (s, [])
      else Py.Ok (s, [])
    end
  end.

End SmartAciAndTakeProfitStrategy.

(** ** 3. Periodic investment gated by the baseline ([SmartAciOnlyStrategy]) *)

Module SmartAciOnlyStrategy.

Record Params : Type :=
  mkParams { investment_day : Z; base_investment : float; ma_period : Z }.

(** [INVESTMENT_DAY], [BASE_INVESTMENT_AMOUNT], [BASELINE_MA_PERIOD] *)
Definition default_params : Params := mkParams 1 5000.0 120.

Record Lines : Type := mkLines { ma_baseline : float }.

Record State : Type :=
  mkState { order : option Order; last_investment_month : Z }.

(** [__init__] *)
Definition init : State := mkState None (-1).

Definition set_order (s : State) (o : option Order) : State :=
  mkState o (last_investment_month s).
Definition set_last_investment_month (s : State) (m : Z) : State :=
  mkState (order s) m.

Inductive Msg : Type :=
| BuyExecuted (d : date) (e : Executed)
| OrderFailed (st : Status)
| BelowBaseline (d : date)
| CashShort (d : date)
| AboveBaseline (d : date).

Definition notify_order (dt : Data) (o : Order) (s : State)
  : State * list (Effect Msg) :=
  if pending (status o) then (s, [])
  else if completed (status o) then
    (set_order s None,
     if isbuy o then [Printed (BuyExecuted (datetime dt) (executed o))] else [])
  else if failed (status o) then
    (set_order s None, [Printed (OrderFailed (status o))])
  else (s, []).

Definition next (p : Params) (ln : Lines) (dt : Data) (b : Broker) (s : State)
  : Py.exc (State * list (Effect Msg)) :=
  match order s with
  | Some _ => Py.Ok (s, [])
  | None =>
    let current_date := datetime dt in
    let current_month := month current_date in
    if negb (current_month =? last_investment_month s)%Z
       && (day current_date >=? investment_day p)%Z then
      let s := set_last_investment_month s current_month in
      if Py.lt (close dt) (ma_baseline ln) then
        if Py.gt (get_cash b) (base_investment p) then
          size_to_buy <- Py.truediv (base_investment p) (close dt) ;;
          Py.Ok (set_order s (Some (buy (Some size_to_buy))),
                 [Printed (BelowBaseline current_date);
                  Submit (buy (Some size_to_buy))])
        else
          Py.Ok (s, [Printed (BelowBaseline current_date);
                     Printed (CashShort current_date)])
      else Py.Ok (s, [Printed (AboveBaseline current_date)])
    else Py.Ok (s, [])
  end.

End SmartAciOnlyStrategy.

(** ** 9. Plain periodic investment ([FixedAutoInvestStrategy]) *)

Module FixedAutoInvestStrategy.

Record Params : Type :=
  mkParams { investment_day : Z; investment_amount : float }.

(** [INVESTMENT_DAY], [FIXED_INVESTMENT_AMOUNT] *)
Definition default_params : Params := mkParams 1 2000.0.

Record State : Type :=
  mkState { order : option Order; last_investment_month : Z }.

(** [__init__] *)
Definition init : State := mkState None (-1).

Definition set_order (s : State) (o : option Order) : State :=
  mkState o (last_investment_month s).
Definition set_last_investment_month (s : State) (m : Z) : State :=
  mkState (order s) m.

Inductive Msg : Type :=
| BuyExecuted (d : date) (e : Executed)
| OrderFailed (st : Status)
| InvestmentDay (d : date)
| CashShort (d : date).

Definition notify_order (dt : Data) (o : Order) (s : State)
  : State * list (Effect Msg) :=
  if pending (status o) then (s, [])
  else if completed (status o) then
    (set_order s None,
     if isbuy o then [Printed (BuyExecuted (datetime dt) (executed o))] else [])
  else if failed (status o) then
    (set_order s None, [Printed (OrderFailed (status o))])
  else (s, []).

Definition next (p : Params) (dt : Data) (b : Broker) (s : State)
  : Py.exc (State * list (Effect Msg)) :=
  match order s with
  | Some _ => Py.Ok (s, [])
  | None =>
    let current_date := datetime dt in
    let current_month := month current_date in
    if negb (current_month =? last_investment_month s)%Z
       && (day current_date >=? investment_day p)%Z then
      let s := set_last_investment_month s current_month in
      if Py.gt (get_cash b) (investment_amount p) then
        size_to_buy <- Py.truediv (investment_amount p) (close dt) ;;
        Py.Ok (set_order s (Some (buy (Some size_to_buy))),
               [Printed (InvestmentDay current_date);
                Submit (buy (Some size_to_buy))])
      else
        Py.Ok (s, [Printed (InvestmentDay current_date);
                   Printed (CashShort current_date)])
    else Py.Ok (s, [])
  end.

End FixedAutoInvestStrategy.

(** ** The four indicator strategies

    [DualMACrossoverStrategy], [BollingerBandsStrategy], [MacdStrategy] and
    [DualConfirmationStrategy] keep no field besides [order]; their
    [notify_order] is the same text. *)

Record Tracking : Type := mkTracking { order : option Order }.

Inductive FillMsg : Type :=
| BuyExecuted (d : date) (e : Executed)
| SellExecuted (d : date) (e : Executed)
| OrderFailed (st : Status).

Definition notify_order_plain {M : Type} (inj : FillMsg -> M)
    (dt : Data) (o : Order) (s : Tracking) : Tracking * list (Effect M) :=
  if pending (status o) then (s, [])
  else if completed (status o) then
    (mkTracking None,
     if isbuy o then [Printed (inj (BuyExecuted (datetime dt) (executed o)))]
     else if issell o then [Printed (inj (SellExecuted (datetime dt) (executed o)))]
     else [])
  else if failed (status o) then
    (mkTracking None, [Printed (inj (OrderFailed (status o)))])
  else (s, []).

(** *** 1. Dual moving-average crossover *)

Module DualMACrossoverStrategy.

Record Params : Type := mkParams { fast_ma_period : Z; slow_ma_period : Z }.

(** [FAST_MA_PERIOD], [SLOW_MA_PERIOD] *)
Definition default_params : Params := mkParams 20 60.

(** [self.crossover[0]] *)
Record Lines : Type := mkLines { crossover : float }.

Definition State : Type := Tracking.
Definition init : State := mkTracking None.

Inductive Msg : Type :=
| Fill (m : FillMsg)
| DeathCross (d : date)
| GoldenCross (d : date).

Definition notify_order := notify_order_plain Fill.

Definition next (p : Params) (ln : Lines) (dt : Data) (b : Broker) (s : State)
  : State * list (Effect Msg) :=
  match order s with
  | Some _ => (s, [])
  | None =>
    if position_bool (position b) then
      if Py.lt (crossover ln) 0 then
        (mkTracking (Some close_position),
         [Printed (DeathCross (datetime dt)); Submit close_position])
      else (s, [])
    else
      if Py.gt (crossover ln) 0 then
        (mkTracking (Some (buy None)),
         [Printed (GoldenCross (datetime dt)); Submit (buy None)])
      else (s, [])
  end.

End DualMACrossoverStrategy.

(** *** 4. Bollinger-band reversal *)

Module BollingerBandsStrategy.

Record Params : Type := mkParams { period : Z; devfactor : float }.

(** [BBANDS_PERIOD], [BBANDS_DEV_FACTOR] *)
Definition default_params : Params := mkParams 50 2.0.

(** [self.bband.lines.bot[0]], [self.bband.lines.mid[0]] *)
Record Lines : Type := mkLines { bot : float; mid : float }.

Definition State : Type := Tracking.
Definition init : State := mkTracking None.

Inductive Msg : Type :=
| Fill (m : FillMsg)
| TouchedLowerBand (d : date) (band : float)
| BackToMiddleBand (d : date) (band : float).

Definition notify_order := notify_order_plain Fill.

Definition next (p : Params) (ln : Lines) (dt : Data) (b : Broker) (s : State)
  : State * list (Effect Msg) :=
  match order s with
  | Some _ => (s, [])
  | None =>
    if negb (position_bool (position b)) then
      if Py.le (close dt) (bot ln) then
        (mkTracking (Some (buy None)),
         [Printed (TouchedLowerBand (datetime dt) (bot ln)); Submit (buy None)])
      else (s, [])
    else
      if Py.ge (close dt) (mid ln) then
        (mkTracking (Some close_position),
         [Printed (BackToMiddleBand (datetime dt) (mid ln)); Submit close_position])
      else (s, [])
  end.

End BollingerBandsStrategy.

(** *** 6. MACD trend following *)

Module MacdStrategy.

Record Params : Type :=
  mkParams { fast_period : Z; slow_period : Z; signal_period : Z }.

(** [MACD_FAST_PERIOD], [MACD_SLOW_PERIOD], [MACD_SIGNAL_PERIOD] *)
Definition default_params : Params := mkParams 12 26 9.

(** [self.crossover[0]] *)
Record Lines : Type := mkLines { crossover : float }.

Definition State : Type := Tracking.
Definition init : State := mkTracking None.

Inductive Msg : Type :=
| Fill (m : FillMsg)
| GoldenCross (d : date)
| DeathCross (d : date).

Definition notify_order := notify_order_plain Fill.

Definition next (p : Params) (ln : Lines) (dt : Data) (b : Broker) (s : State)
  : State * list (Effect Msg) :=
  match order s with
  | Some _ => (s, [])
  | None =>
    if negb (position_bool (position b)) then
      if Py.gt (crossover ln) 0 then
        (mkTracking (Some (buy None)),
         [Printed (GoldenCross (datetime dt)); Submit (buy None)])
      else (s, [])
    else
      if Py.lt (crossover ln) 0 then
        (mkTracking (Some close_position),
         [Printed (DeathCross (datetime dt)); Submit close_position])
      else (s, [])
  end.

End MacdStrategy.

(** *** 7. Dual confirmation (trend average and RSI) *)

Module DualConfirmationStrategy.

Record Params : Type :=
  mkParams { trend_period : Z; rsi_period : Z; rsi_lower : float }.

(** [TREND_MA_PERIOD], [RSI_PERIOD], [RSI_LOWER] *)
Definition default_params : Params := mkParams 120 14 30.0.

(** [self.trend_ma[0]], [self.rsi[0]] *)
Record Lines : Type := mkLines { trend_ma : float; rsi : float }.

Definition State : Type := Tracking.
Definition init : State := mkTracking None.

Inductive Msg : Type :=
| Fill (m : FillMsg)
| Confirmed (d : date) (rsi_now : float)
| TrendBroken (d : date) (trend : float).

Definition notify_order := notify_order_plain Fill.

Definition next (p : Params) (ln : Lines) (dt : Data) (b : Broker) (s : State)
  : State * list (Effect Msg) :=
  match order s with
  | Some _ => (s, [])
  | None =>
    if negb (position_bool (position b)) then
      let is_in_uptrend := Py.gt (close dt) (trend_ma ln) in
      let is_oversold := Py.le (rsi ln) (rsi_lower p) in
      if is_in_uptrend && is_oversold then
        (mkTracking (Some (buy None)),
         [Printed (Confirmed (datetime dt) (rsi ln)); Submit (buy None)])
      else (s, [])
    else
      if Py.le (close dt) (trend_ma ln) then
        (mkTracking (Some close_position),
         [Printed (TrendBroken (datetime dt) (trend_ma ln)); Submit close_position])
      else (s, [])
  end.

End DualConfirmationStrategy.

(** ** The common shape of a strategy, and the loop that drives it *)

(** What [bt.Strategy] asks of a subclass, with the fields made explicit. *)
Record Strategy : Type :=
  mkStrategy {
    Params : Type;
    Lines : Type;
    State : Type;
    Msg : Type;
    initially : State;
    tracked : State -> option Order;
    on_order : Data -> Order -> State -> State * list (Effect Msg);
    on_bar : Params -> Lines -> Data -> Broker -> State
             -> Py.exc (State * list (Effect Msg))
  }.

Definition total {A B C D E R : Type} (f : A -> B -> C -> D -> E -> R)
  : A -> B -> C -> D -> E -> Py.exc R :=
  fun a b c d e => Py.Ok (f a b c d e).

Inductive Variant : Type :=
| DualMACrossover | SmartAciAndTakeProfit | SmartAciOnly | BollingerBands
| Macd | DualConfirmation | FixedPercentage | FixedAutoInvest | AnchorLow.

Definition strategy (v : Variant) : Strategy :=
  match v with
  | DualMACrossover =>
      mkStrategy _ _ _ _ DualMACrossoverStrategy.init order
        DualMACrossoverStrategy.notify_order
        (total DualMACrossoverStrategy.next)
  | SmartAciAndTakeProfit =>
      mkStrategy _ _ _ _ SmartAciAndTakeProfitStrategy.init
        SmartAciAndTakeProfitStrategy.order
        SmartAciAndTakeProfitStrategy.notify_order
        SmartAciAndTakeProfitStrategy.next
  | SmartAciOnly =>
      mkStrategy _ _ _ _ SmartAciOnlyStrategy.init SmartAciOnlyStrategy.order
        SmartAciOnlyStrategy.notify_order SmartAciOnlyStrategy.next
  | BollingerBands =>
      mkStrategy _ _ _ _ BollingerBandsStrategy.init order
        BollingerBandsStrategy.notify_order
        (total BollingerBandsStrategy.next)
  | Macd =>
      mkStrategy _ _ _ _ MacdStrategy.init order MacdStrategy.notify_order
        (total MacdStrategy.next)
  | DualConfirmation =>
      mkStrategy _ _ _ _ DualConfirmationStrategy.init order
        DualConfirmationStrategy.notify_order
        (total DualConfirmationStrategy.next)
  | FixedPercentage =>
      mkStrategy _ unit _ _ FixedPercentageStrategy.init
        FixedPercentageStrategy.order FixedPercentageStrategy.notify_order
        (fun p _ dt b s => Py.Ok (FixedPercentageStrategy.next p dt b s))
  | FixedAutoInvest =>
      mkStrategy _ unit _ _ FixedAutoInvestStrategy.init
        FixedAutoInvestStrategy.order FixedAutoInvestStrategy.notify_order
        (fun p _ dt b s => FixedAutoInvestStrategy.next p dt b s)
  | AnchorLow =>
      mkStrategy _ unit _ _ AnchorLowStrategy.init AnchorLowStrategy.order
        AnchorLowStrategy.notify_order
        (fun p _ dt b s => Py.Ok (AnchorLowStrategy.next p dt b s))
  end.

(** The framework, seen from a strategy, is a sequence of calls: a
    notification about an order, or the next bar with what the indicators and
    the broker show on it.  Nothing is assumed about the sequence. *)
Inductive Event (L : Type) : Type :=
| Notify (dt : Data) (o : Order)
| Bar (ln : L) (dt : Data) (b : Broker).
Arguments Notify {L} dt o.
Arguments Bar {L} ln dt b.

Definition deliver (S : Strategy) (p : Params S) (ev : Event (Lines S))
    (s : State S) : Py.exc (State S * list (Effect (Msg S))) :=
  match ev with
  | Notify dt o => Py.Ok (on_order S dt o s)
  | Bar ln dt b => on_bar S p ln dt b s
  end.

Fixpoint run (S : Strategy) (p : Params S) (evs : list (Event (Lines S)))
    (s : State S) : Py.exc (State S * list (Effect (Msg S))) :=
  match evs with
  | [] => Py.Ok (s, [])
  | ev :: rest =>
      r1 <- deliver S p ev s ;;
      r2 <- run S p rest (fst r1) ;;
      Py.Ok (fst r2, snd r1 ++ snd r2)
  end.

(** A notification that a sell was filled. *)
Definition is_sell_fill {L : Type} (ev : Event L) : bool :=
  match ev with
  | Notify _ o => completed (status o) && issell o
  | Bar _ _ _ => false
  end.

(** ** Example bars used by the concrete runs below *)

Definition bar_at (y m d : Z) (px : float) : Data := mkData (mkDate y m d) px.

Definition holding (sz px : float) (cash : float) : Broker :=
  mkBroker (mkPosition sz px) cash.

Definition out_of_market (cash : float) : Broker := mkBroker flat cash.

(** A filled order, as the broker reports it. *)
Definition filled (t : OrdType) (sz px : float) : Order :=
  mkOrder Completed t None (mkExecuted sz px (sz * px) 0).

(** Two trading days a year apart, in the same month of the year. *)
Definition march_2020 : date := mkDate 2020 3 2.
Definition march_2021 : date := mkDate 2021 3 1.

(** A float that is not a NaN. *)
Definition is_number (x : float) : bool := Py.eq x x.

(** ** Vocabulary for the properties of runs *)

(** The statuses on which every [notify_order] forgets the tracked order:
    [Completed], and [Canceled], [Margin], [Rejected]. *)
Definition terminal (st : Status) : bool := completed st || failed st.

(** 1 when an order is tracked, 0 otherwise. *)
Definition in_flight (o : option Order) : nat :=
  match o with Some _ => 1 | None => 0 end.

Definition is_terminal_notice {L : Type} (ev : Event L) : bool :=
  match ev with
  | Notify _ o => terminal (status o)
  | Bar _ _ _ => false
  end.

Definition count_terminal {L : Type} (evs : list (Event L)) : nat :=
  length (filter is_terminal_notice evs).

(** A bar, or a notification that is not terminal. *)
Definition keeps_waiting {L : Type} (ev : Event L) : bool :=
  negb (is_terminal_notice ev).

Definition raises {A : Type} (r : Py.exc A) : bool :=
  match r with Py.Ok _ => false | Py.Raise _ => true end.

(** The buy orders among the orders a callback submitted. *)
Definition buys {M : Type} (out : list (Effect M)) : list Order :=
  filter isbuy (submitted out).

(** A notification, or a bar dated in month number [m]. *)
Definition in_month {L : Type} (m : Z) (ev : Event L) : bool :=
  match ev with
  | Notify _ _ => true
  | Bar _ dt _ => (month (datetime dt) =? m)%Z
  end.

(** The two strategies that only ever add to the position. *)
Definition accumulates (v : Variant) : bool :=
  match v with
  | SmartAciOnly | FixedAutoInvest => true
  | _ => false
  end.

(** The three strategies that invest once a month. *)
Definition monthly (v : Variant) : bool :=
  match v with
  | SmartAciAndTakeProfit | SmartAciOnly | FixedAutoInvest => true
  | _ => false
  end.


(** The monthly gate of the three periodic strategies, as their [next]
    writes it. *)
Definition gate_fires (d : date) (last_investment_month investment_day : Z)
  : bool :=
  negb (month d =? last_investment_month)%Z && (day d >=? investment_day)%Z.

(** * Properties *)

(** ** The order of floats *)

Section FloatOrder.

Lemma SFcompare_refl (f : spec_float) :
  f <> S754_nan -> SFcompare f f = Some Eq.
Proof.
  destruct f as [s|s| |s m e]; simpl; intros H; try congruence.
  - destruct s; reflexivity.
  - rewrite Z.compare_refl.
    change (Pos.compare_cont Eq m m) with (Pos.compare m m).
    rewrite Pos.compare_refl. destruct s; reflexivity.
Qed.

Ltac order_cases :=
  repeat match goal with
  | H : context [Z.compare ?a ?b] |- _ => destruct (Z.compare_spec a b)
  | |- context [Z.compare ?a ?b] => destruct (Z.compare_spec a b)
  | H : context [Pos.compare ?a ?b] |- _ => destruct (Pos.compare_spec a b)
  | |- context [Pos.compare ?a ?b] => destruct (Pos.compare_spec a b)
  end.

Lemma SFleb_trans (a b c : spec_float) :
  SFleb a b = true -> SFleb b c = true -> SFleb a c = true.
Proof.
  unfold SFleb.
  destruct a as [sa|sa| |sa ma ea], b as [sb|sb| |sb mb eb],
           c as [sc|sc| |sc mc ec];
    simpl; try congruence;
    try (destruct sa); try (destruct sb); try (destruct sc);
    simpl; try congruence;
    change (Pos.compare_cont Eq) with Pos.compare;
    intros H1 H2; order_cases; simpl in *; subst; try congruence; try lia.
Qed.

Lemma le_trans (a b c : float) :
  Py.le a b = true -> Py.le b c = true -> Py.le a c = true.
Proof. unfold Py.le. rewrite !leb_spec. apply SFleb_trans. Qed.

Lemma lt_le (a b : float) : Py.lt a b = true -> Py.le a b = true.
Proof.
  unfold Py.lt, Py.le. rewrite ltb_spec, leb_spec. unfold SFltb, SFleb.
  destruct (SFcompare _ _) as [[]|]; congruence.
Qed.

Lemma le_refl (a : float) : is_number a = true -> Py.le a a = true.
Proof.
  unfold is_number, Py.eq, Py.le.
  rewrite FloatAxioms.eqb_spec, leb_spec. unfold SFeqb, SFleb.
  destruct (SFcompare _ _) as [[]|]; congruence.
Qed.

Lemma lt_is_number (a b : float) : Py.lt a b = true -> is_number a = true.
Proof.
  unfold is_number, Py.lt, Py.eq.
  rewrite ltb_spec, FloatAxioms.eqb_spec. unfold SFltb, SFeqb. intros H.
  rewrite SFcompare_refl; [reflexivity|].
  intros E. rewrite E in H. simpl in H. congruence.
Qed.

End FloatOrder.

(** Case analysis on every test of a callback, outermost first. *)
Ltac split_tests :=
  repeat match goal with
         | |- context [if ?c then _ else _] => destruct c; simpl
         end.

(** ** The in-flight gate *)

(** C1.  In each of the nine strategies, a call of [next] that finds an order
    in flight ([self.order] is not [None]) returns at once: nothing is
    printed, no order is handed to the broker, no exception is raised, and
    every field of the strategy is what it was. *)
Theorem in_flight_step_is_noop
    (v : Variant) (p : Params (strategy v)) (ln : Lines (strategy v))
    (dt : Data) (b : Broker) (s : State (strategy v)) (o : Order) :
  tracked (strategy v) s = Some o ->
  on_bar (strategy v) p ln dt b s = Py.Ok (s, []).
Proof.
  destruct v; simpl in *; intros H;
    unfold total, DualMACrossoverStrategy.next, BollingerBandsStrategy.next,
      MacdStrategy.next, DualConfirmationStrategy.next,
      SmartAciAndTakeProfitStrategy.next, SmartAciOnlyStrategy.next,
      FixedPercentageStrategy.next, FixedAutoInvestStrategy.next,
      AnchorLowStrategy.next;
    rewrite H; reflexivity.
Qed.

Lemma in_flight_step_is_noop_witness :
  let s := AnchorLowStrategy.mkState (Some (buy None)) 1 2.5 in
  tracked (strategy AnchorLow) s = Some (buy None) /\
  on_bar (strategy AnchorLow) AnchorLowStrategy.default_params tt
    (bar_at 2021 3 1 1.25) (out_of_market 100000) s = Py.Ok (s, []).
Proof.
  split; [reflexivity|].
  apply (in_flight_step_is_noop AnchorLow AnchorLowStrategy.default_params tt
           (bar_at 2021 3 1 1.25) (out_of_market 100000) _ (buy None)).
  reflexivity.
Defined.

(** ** The monthly gate and the cash check *)

(** C2, as stated, fails: on an eligible day of a new month on which cash does
    not exceed the amount, both [FixedAutoInvestStrategy] and
    [SmartAciOnlyStrategy] submit nothing, yet [last_investment_month] goes
    from -1 to the month of the bar. *)
Lemma cash_short_skip_keeps_state_counterexample :
  let dt := bar_at 2021 3 1 1.25 in
  let b := out_of_market 1000 in
  (Py.gt (get_cash b)
         (FixedAutoInvestStrategy.investment_amount
            FixedAutoInvestStrategy.default_params) = false /\
   exists s' out,
     FixedAutoInvestStrategy.next FixedAutoInvestStrategy.default_params dt b
       FixedAutoInvestStrategy.init = Py.Ok (s', out) /\
     submitted out = [] /\
     FixedAutoInvestStrategy.last_investment_month s' = 3%Z /\
     FixedAutoInvestStrategy.last_investment_month s' <>
     FixedAutoInvestStrategy.last_investment_month FixedAutoInvestStrategy.init) /\
  (Py.gt (get_cash b)
         (SmartAciOnlyStrategy.base_investment
            SmartAciOnlyStrategy.default_params) = false /\
   exists s' out,
     SmartAciOnlyStrategy.next SmartAciOnlyStrategy.default_params
       (SmartAciOnlyStrategy.mkLines 1.5) dt b
       SmartAciOnlyStrategy.init = Py.Ok (s', out) /\
     submitted out = [] /\
     SmartAciOnlyStrategy.last_investment_month s' = 3%Z /\
     SmartAciOnlyStrategy.last_investment_month s' <>
     SmartAciOnlyStrategy.last_investment_month SmartAciOnlyStrategy.init).
Proof.
  split; (split; [vm_compute; reflexivity|]);
    eexists; eexists; (split; [vm_compute; reflexivity|]);
    repeat split; simpl; discriminate.
Qed.

(** C2, amended.  On an eligible day of a new month with no order in flight
    and cash not above the amount, both strategies hand no order to the
    broker and leave [order] at [None]; the one field that changes is
    [last_investment_month], which becomes the month of the bar. *)
Theorem cash_short_skip_records_month :
  (forall (p : FixedAutoInvestStrategy.Params) (dt : Data) (b : Broker)
          (s : FixedAutoInvestStrategy.State),
      FixedAutoInvestStrategy.order s = None ->
      month (datetime dt) <> FixedAutoInvestStrategy.last_investment_month s ->
      (FixedAutoInvestStrategy.investment_day p <= day (datetime dt))%Z ->
      Py.gt (get_cash b) (FixedAutoInvestStrategy.investment_amount p) = false ->
      FixedAutoInvestStrategy.next p dt b s =
      Py.Ok (FixedAutoInvestStrategy.mkState None (month (datetime dt)),
             [Printed (FixedAutoInvestStrategy.InvestmentDay (datetime dt));
              Printed (FixedAutoInvestStrategy.CashShort (datetime dt))])) /\
  (forall (p : SmartAciOnlyStrategy.Params) (ln : SmartAciOnlyStrategy.Lines)
          (dt : Data) (b : Broker) (s : SmartAciOnlyStrategy.State),
      SmartAciOnlyStrategy.order s = None ->
      month (datetime dt) <> SmartAciOnlyStrategy.last_investment_month s ->
      (SmartAciOnlyStrategy.investment_day p <= day (datetime dt))%Z ->
      Py.gt (get_cash b) (SmartAciOnlyStrategy.base_investment p) = false ->
      exists out,
        SmartAciOnlyStrategy.next p ln dt b s =
        Py.Ok (SmartAciOnlyStrategy.mkState None (month (datetime dt)), out) /\
        submitted out = []).
Proof.
  split.
  - intros p dt b [o m] Ho Hm Hd Hc. simpl in *. subst o.
    unfold FixedAutoInvestStrategy.next. simpl.
    apply Z.eqb_neq in Hm. rewrite Hm.
    apply Z.geb_le in Hd. rewrite Hd. simpl.
    rewrite Hc. reflexivity.
  - intros p ln dt b [o m] Ho Hm Hd Hc. simpl in *. subst o.
    unfold SmartAciOnlyStrategy.next. simpl.
    apply Z.eqb_neq in Hm. rewrite Hm.
    apply Z.geb_le in Hd. rewrite Hd. simpl.
    rewrite Hc.
    destruct (Py.lt (close dt) (SmartAciOnlyStrategy.ma_baseline ln));
      eexists; split; reflexivity.
Qed.

Lemma cash_short_skip_records_month_witness :
  FixedAutoInvestStrategy.next FixedAutoInvestStrategy.default_params
    (bar_at 2021 3 1 1.25) (out_of_market 1000) FixedAutoInvestStrategy.init =
  Py.Ok (FixedAutoInvestStrategy.mkState None 3,
         [Printed (FixedAutoInvestStrategy.InvestmentDay (mkDate 2021 3 1));
          Printed (FixedAutoInvestStrategy.CashShort (mkDate 2021 3 1))]) /\
  exists out,
    SmartAciOnlyStrategy.next SmartAciOnlyStrategy.default_params
      (SmartAciOnlyStrategy.mkLines 1.5) (bar_at 2021 3 1 1.25)
      (out_of_market 1000) SmartAciOnlyStrategy.init =
    Py.Ok (SmartAciOnlyStrategy.mkState None 3, out) /\ submitted out = [].
Proof.
  split.
  - apply (proj1 cash_short_skip_records_month
             FixedAutoInvestStrategy.default_params (bar_at 2021 3 1 1.25)
             (out_of_market 1000) FixedAutoInvestStrategy.init).
    + reflexivity.
    + simpl; lia.
    + simpl; lia.
    + vm_compute; reflexivity.
  - apply (proj2 cash_short_skip_records_month
             SmartAciOnlyStrategy.default_params
             (SmartAciOnlyStrategy.mkLines 1.5) (bar_at 2021 3 1 1.25)
             (out_of_market 1000) SmartAciOnlyStrategy.init).
    + reflexivity.
    + simpl; lia.
    + simpl; lia.
    + vm_compute; reflexivity.
Defined.

(** ** The historical low of the anchored-low strategy *)

Lemma anchor_low_next_low (p : AnchorLowStrategy.Params) (dt : Data)
    (b : Broker) (s : AnchorLowStrategy.State) :
  AnchorLowStrategy.historical_low (fst (AnchorLowStrategy.next p dt b s)) =
  match AnchorLowStrategy.order s with
  | Some _ => AnchorLowStrategy.historical_low s
  | None => Py.min (AnchorLowStrategy.historical_low s) (close dt)
  end.
Proof.
  destruct s as [o ph low]. unfold AnchorLowStrategy.next, Py.min. simpl.
  destruct o; [reflexivity|].
  destruct (Py.lt (close dt) low); simpl;
    split_tests; reflexivity.
Qed.

Lemma anchor_low_notify_low (dt : Data) (o : Order)
    (s : AnchorLowStrategy.State) :
  AnchorLowStrategy.historical_low (fst (AnchorLowStrategy.notify_order dt o s)) =
  AnchorLowStrategy.historical_low s.
Proof.
  destruct s as [so ph low]. unfold AnchorLowStrategy.notify_order. simpl.
  split_tests; reflexivity.
Qed.

(** One call of the framework, on a low that is a number, leaves a low that
    is a number and is not above the one before. *)
Lemma anchor_low_deliver_low (p : AnchorLowStrategy.Params)
    (ev : Event unit) (s : AnchorLowStrategy.State) :
  is_number (AnchorLowStrategy.historical_low s) = true ->
  exists s' out,
    deliver (strategy AnchorLow) p ev s = Py.Ok (s', out) /\
    is_number (AnchorLowStrategy.historical_low s') = true /\
    Py.le (AnchorLowStrategy.historical_low s')
          (AnchorLowStrategy.historical_low s) = true.
Proof.
  intros Hn. destruct ev as [dt o | ln dt b]; simpl.
  - exists (fst (AnchorLowStrategy.notify_order dt o s)),
           (snd (AnchorLowStrategy.notify_order dt o s)).
    rewrite <- surjective_pairing, anchor_low_notify_low.
    auto using le_refl.
  - exists (fst (AnchorLowStrategy.next p dt b s)),
           (snd (AnchorLowStrategy.next p dt b s)).
    rewrite <- surjective_pairing, anchor_low_next_low.
    split; [reflexivity|].
    destruct (AnchorLowStrategy.order s); [auto using le_refl|].
    unfold Py.min.
    destruct (Py.lt (close dt) (AnchorLowStrategy.historical_low s)) eqn:Hlt.
    + eauto using lt_is_number, lt_le.
    + auto using le_refl.
Qed.

Lemma anchor_low_run_low (p : AnchorLowStrategy.Params)
    (evs : list (Event unit)) :
  forall s : AnchorLowStrategy.State,
    is_number (AnchorLowStrategy.historical_low s) = true ->
    exists s' out,
      run (strategy AnchorLow) p evs s = Py.Ok (s', out) /\
      is_number (AnchorLowStrategy.historical_low s') = true /\
      Py.le (AnchorLowStrategy.historical_low s')
            (AnchorLowStrategy.historical_low s) = true.
Proof.
  induction evs as [|ev rest IH]; intros s Hn.
  - exists s, []. auto using le_refl.
  - destruct (anchor_low_deliver_low p ev s Hn) as (s1 & out1 & E1 & N1 & L1).
    destruct (IH s1 N1) as (s2 & out2 & E2 & N2 & L2).
    exists s2, (out1 ++ out2).
    change (run (strategy AnchorLow) p (ev :: rest) s)
      with (r1 <- deliver (strategy AnchorLow) p ev s ;;
            r2 <- run (strategy AnchorLow) p rest (fst r1) ;;
            Py.Ok (fst r2, snd r1 ++ snd r2)).
    rewrite E1. cbn [Py.bind fst snd]. rewrite E2. cbn [Py.bind fst snd].
    eauto using le_trans.
Qed.

(** C3, as stated, fails on a bar that finds an order in flight: after a
    first bar at 10.0 (which submits the initial buy) a second bar at 5.0,
    delivered before any notification, leaves [historical_low] at 10.0, not
    at min(10.0, 5.0) = 5.0. *)
Lemma historical_low_every_bar_counterexample :
  let p := AnchorLowStrategy.default_params in
  exists s1 out1,
    run (strategy AnchorLow) p
        [Bar tt (bar_at 2021 3 1 10.0) (out_of_market 100000)]
        AnchorLowStrategy.init = Py.Ok (s1, out1) /\
    AnchorLowStrategy.order s1 = Some (buy None) /\
    AnchorLowStrategy.historical_low s1 = 10.0%float /\
    let s2 := fst (AnchorLowStrategy.next p (bar_at 2021 3 2 5.0)
                     (out_of_market 100000) s1) in
    AnchorLowStrategy.historical_low s2 = 10.0%float /\
    Py.min (AnchorLowStrategy.historical_low s1) 5.0 = 5.0%float /\
    AnchorLowStrategy.historical_low s2 <>
    Py.min (AnchorLowStrategy.historical_low s1)
           (close (bar_at 2021 3 2 5.0)).
Proof.
  eexists; eexists. split; [vm_compute; reflexivity|].
  repeat split; try (vm_compute; reflexivity).
  intros H.
  apply (f_equal (fun x => Py.eq x 5.0)) in H.
  vm_compute in H. discriminate.
Qed.

(** C3, amended.  A call of [next] that finds no order in flight leaves
    [historical_low] at min(historical_low, close), whatever the phase and
    the position; a call that finds an order in flight, and every
    [notify_order], leave it as it was.  Hence over any run from the initial
    state, however bars and notifications alternate, the run raises nothing
    and [historical_low] never goes up between two points of the run. *)
Theorem historical_low_is_running_min :
  (forall (p : AnchorLowStrategy.Params) (dt : Data) (b : Broker)
          (s : AnchorLowStrategy.State),
      AnchorLowStrategy.historical_low (fst (AnchorLowStrategy.next p dt b s)) =
      match AnchorLowStrategy.order s with
      | Some _ => AnchorLowStrategy.historical_low s
      | None => Py.min (AnchorLowStrategy.historical_low s) (close dt)
      end) /\
  (forall (dt : Data) (o : Order) (s : AnchorLowStrategy.State),
      AnchorLowStrategy.historical_low
        (fst (AnchorLowStrategy.notify_order dt o s)) =
      AnchorLowStrategy.historical_low s) /\
  (forall (p : AnchorLowStrategy.Params) (before after : list (Event unit)),
      exists s1 out1 s2 out2,
        run (strategy AnchorLow) p before AnchorLowStrategy.init =
        Py.Ok (s1, out1) /\
        run (strategy AnchorLow) p after s1 = Py.Ok (s2, out2) /\
        Py.le (AnchorLowStrategy.historical_low s2)
              (AnchorLowStrategy.historical_low s1) = true).
Proof.
  split; [exact anchor_low_next_low|].
  split; [exact anchor_low_notify_low|].
  intros p before after.
  destruct (anchor_low_run_low p before AnchorLowStrategy.init)
    as (s1 & out1 & E1 & N1 & _); [vm_compute; reflexivity|].
  destruct (anchor_low_run_low p after s1 N1) as (s2 & out2 & E2 & _ & L2).
  exists s1, out1, s2, out2. auto.
Qed.

(** ** Runs *)

Lemma run_cons (S : Strategy) (p : Params S) (ev : Event (Lines S))
    (rest : list (Event (Lines S))) (s : State S) :
  run S p (ev :: rest) s =
  (r1 <- deliver S p ev s ;;
   r2 <- run S p rest (fst r1) ;;
   Py.Ok (fst r2, snd r1 ++ snd r2)).
Proof. reflexivity. Qed.

(** A property of the fields that every allowed call preserves, without
    raising, holds at the end of every run made of allowed calls. *)
Lemma run_preserves (S : Strategy) (p : Params S)
    (allowed : Event (Lines S) -> bool) (Inv : State S -> Prop) :
  (forall ev s, allowed ev = true -> Inv s ->
                exists s' out, deliver S p ev s = Py.Ok (s', out) /\ Inv s') ->
  forall evs s, forallb allowed evs = true -> Inv s ->
                exists s' out, run S p evs s = Py.Ok (s', out) /\ Inv s'.
Proof.
  intros Hstep. induction evs as [|ev rest IH]; intros s Hall Hs.
  - exists s, []. auto.
  - simpl in Hall. apply andb_prop in Hall as [Hev Hrest].
    destruct (Hstep ev s Hev Hs) as (s1 & out1 & E1 & I1).
    destruct (IH s1 Hrest I1) as (s2 & out2 & E2 & I2).
    exists s2, (out1 ++ out2).
    rewrite run_cons, E1. cbn [Py.bind fst snd].
    rewrite E2. cbn [Py.bind fst snd]. auto.
Qed.

Lemma forallb_any {A : Type} (l : list A) : forallb (fun _ => true) l = true.
Proof. induction l; simpl; auto. Qed.

(** ** Profit target before stop loss *)

(** C4.  In [FixedPercentageStrategy], and in [AnchorLowStrategy] in phase 2,
    on a bar that finds no order in flight and a position held, with the
    close both at or above buy_price * (1 + profit) and at or below
    buy_price * (1 - loss), [next] takes the profit-target branch: it prints
    the profit-target line, submits the close of the position and tracks
    that order; the stop-loss branch is not taken. *)
Theorem profit_target_checked_first :
  (forall (p : FixedPercentageStrategy.Params) (dt : Data) (b : Broker)
          (s : FixedPercentageStrategy.State),
      FixedPercentageStrategy.order s = None ->
      position_bool (position b) = true ->
      Py.ge (close dt)
            (price (position b) * (1 + FixedPercentageStrategy.profit_pct p))
      = true ->
      Py.le (close dt)
            (price (position b) * (1 - FixedPercentageStrategy.loss_pct p))
      = true ->
      FixedPercentageStrategy.next p dt b s =
      (FixedPercentageStrategy.set_order s (Some close_position),
       [Printed (FixedPercentageStrategy.ProfitReached (datetime dt)
                   (price (position b)
                    * (1 + FixedPercentageStrategy.profit_pct p)));
        Submit close_position])) /\
  (forall (p : AnchorLowStrategy.Params) (dt : Data) (b : Broker)
          (s : AnchorLowStrategy.State),
      AnchorLowStrategy.order s = None ->
      AnchorLowStrategy.strategy_phase s = 2%Z ->
      position_bool (position b) = true ->
      Py.ge (close dt)
            (price (position b) * (1 + AnchorLowStrategy.cycle_profit p))
      = true ->
      Py.le (close dt)
            (price (position b) * (1 - AnchorLowStrategy.cycle_loss p))
      = true ->
      AnchorLowStrategy.order (fst (AnchorLowStrategy.next p dt b s)) =
      Some close_position /\
      snd (AnchorLowStrategy.next p dt b s) =
      [Printed (AnchorLowStrategy.CycleProfitReached (datetime dt)
                  (price (position b)
                   * (1 + AnchorLowStrategy.cycle_profit p)));
       Submit close_position]).
Proof.
  split.
  - intros p dt b s Ho Hpos Hup Hdown.
    unfold FixedPercentageStrategy.next. rewrite Ho, Hpos, Hup. reflexivity.
  - intros p dt b [o ph low] Ho Hph Hpos Hup Hdown. simpl in *. subst o ph.
    unfold AnchorLowStrategy.next. simpl.
    destruct (Py.lt (close dt) low); simpl; rewrite Hpos; simpl;
      rewrite Hup; split; reflexivity.
Qed.

Lemma profit_target_checked_first_witness :
  let dt := bar_at 2021 3 1 100 in
  let b := holding 10 100 0 in
  FixedPercentageStrategy.next (FixedPercentageStrategy.mkParams 0 0 0.05) dt b
    FixedPercentageStrategy.init =
  (FixedPercentageStrategy.mkState (Some close_position) 0,
   [Printed (FixedPercentageStrategy.ProfitReached (mkDate 2021 3 1)
               (100 * (1 + 0))%float);
    Submit close_position]) /\
  snd (AnchorLowStrategy.next (AnchorLowStrategy.mkParams 0.15 0 0 0.03) dt b
         (AnchorLowStrategy.mkState None 2 90)) =
  [Printed (AnchorLowStrategy.CycleProfitReached (mkDate 2021 3 1)
              (100 * (1 + 0))%float);
   Submit close_position].
Proof.
  split.
  - apply (proj1 profit_target_checked_first
             (FixedPercentageStrategy.mkParams 0 0 0.05) (bar_at 2021 3 1 100)
             (holding 10 100 0) FixedPercentageStrategy.init);
      vm_compute; reflexivity.
  - apply (proj2 profit_target_checked_first
             (AnchorLowStrategy.mkParams 0.15 0 0 0.03) (bar_at 2021 3 1 100)
             (holding 10 100 0) (AnchorLowStrategy.mkState None 2 90));
      vm_compute; reflexivity.
Defined.

(** ** The last sell price of the fixed-percentage strategy *)

Lemma fixed_pct_next_keeps_price (p : FixedPercentageStrategy.Params)
    (dt : Data) (b : Broker) (s : FixedPercentageStrategy.State) :
  FixedPercentageStrategy.last_sell_price
    (fst (FixedPercentageStrategy.next p dt b s)) =
  FixedPercentageStrategy.last_sell_price s.
Proof.
  destruct s as [o lsp]. unfold FixedPercentageStrategy.next. simpl.
  destruct o; [reflexivity|].
  split_tests; reflexivity.
Qed.

Lemma fixed_pct_notify_price (dt : Data) (o : Order)
    (s : FixedPercentageStrategy.State) :
  FixedPercentageStrategy.last_sell_price
    (fst (FixedPercentageStrategy.notify_order dt o s)) =
  if completed (status o) && issell o
  then ex_price (executed o)
  else FixedPercentageStrategy.last_sell_price s.
Proof.
  destruct s as [so lsp], o as [st t rq ex].
  unfold FixedPercentageStrategy.notify_order, isbuy, issell. simpl.
  destruct st, t; reflexivity.
Qed.

(** C5.  In [FixedPercentageStrategy]: [last_sell_price] is 0.0 at the start
    and at the end of every run in which no sell has been filled (and the run
    raises nothing); a notification of a filled sell sets it to the executed
    price of the order, as reported; and on a bar that finds no order in
    flight and no position, [next] submits a buy when [last_sell_price] is
    zero, and otherwise exactly when the close is at or above
    last_sell_price * (1 + rebuy_pct) or at or below
    last_sell_price * (1 - rebuy_pct); it submits nothing else. *)
Theorem last_sell_price_drives_rebuy :
  FixedPercentageStrategy.last_sell_price FixedPercentageStrategy.init = 0%float /\
  (forall (p : FixedPercentageStrategy.Params) (evs : list (Event unit)),
      existsb is_sell_fill evs = false ->
      exists s out,
        run (strategy FixedPercentage) p evs FixedPercentageStrategy.init =
        Py.Ok (s, out) /\
        FixedPercentageStrategy.last_sell_price s = 0%float) /\
  (forall (dt : Data) (o : Order) (s : FixedPercentageStrategy.State),
      completed (status o) = true -> issell o = true ->
      FixedPercentageStrategy.last_sell_price
        (fst (FixedPercentageStrategy.notify_order dt o s)) =
      ex_price (executed o)) /\
  (forall (p : FixedPercentageStrategy.Params) (dt : Data) (b : Broker)
          (s : FixedPercentageStrategy.State),
      FixedPercentageStrategy.order s = None ->
      position_bool (position b) = false ->
      let lsp := FixedPercentageStrategy.last_sell_price s in
      let r := FixedPercentageStrategy.rebuy_pct p in
      submitted (snd (FixedPercentageStrategy.next p dt b s)) =
      if Py.eq lsp 0
      then [buy None]
      else if Py.ge (close dt) (lsp * (1 + r)) || Py.le (close dt) (lsp * (1 - r))
           then [buy None]
           else []).
Proof.
  split; [reflexivity|]. split; [|split].
  - intros p evs Hno.
    apply (run_preserves (strategy FixedPercentage) p
             (fun ev => negb (is_sell_fill ev))
             (fun s => FixedPercentageStrategy.last_sell_price s = 0%float)).
    + intros ev s Hev Hs. destruct ev as [dt o | ln dt b]; simpl in *.
      * exists (fst (FixedPercentageStrategy.notify_order dt o s)),
               (snd (FixedPercentageStrategy.notify_order dt o s)).
        rewrite <- surjective_pairing, fixed_pct_notify_price.
        apply negb_true_iff in Hev. rewrite Hev. auto.
      * exists (fst (FixedPercentageStrategy.next p dt b s)),
               (snd (FixedPercentageStrategy.next p dt b s)).
        rewrite <- surjective_pairing, fixed_pct_next_keeps_price. auto.
    + clear -Hno. induction evs as [|ev rest IH]; simpl in *; [reflexivity|].
      apply orb_false_iff in Hno as [H1 H2]. rewrite H1. simpl. auto.
    + reflexivity.
  - intros dt o s Hc Hs. rewrite fixed_pct_notify_price, Hc, Hs. reflexivity.
  - intros p dt b [o lsp] Ho Hflat. simpl in *. subst o.
    unfold FixedPercentageStrategy.next. simpl. rewrite Hflat.
    destruct (Py.eq lsp 0); [reflexivity|].
    destruct (Py.ge (close dt) _); [reflexivity|].
    destruct (Py.le (close dt) _); reflexivity.
Qed.

Lemma last_sell_price_drives_rebuy_witness :
  (exists s out,
      run (strategy FixedPercentage) FixedPercentageStrategy.default_params
          [Bar tt (bar_at 2021 3 1 100) (out_of_market 100000);
           Notify (bar_at 2021 3 2 100) (filled Buy 980 100);
           Bar tt (bar_at 2021 3 2 106) (holding 980 100 2000)]
          FixedPercentageStrategy.init = Py.Ok (s, out) /\
      FixedPercentageStrategy.last_sell_price s = 0%float) /\
  FixedPercentageStrategy.last_sell_price
    (fst (FixedPercentageStrategy.notify_order (bar_at 2021 3 3 106)
            (filled Sell 980 106)
            (FixedPercentageStrategy.mkState (Some close_position) 0))) =
  106%float /\
  submitted (snd (FixedPercentageStrategy.next
                    FixedPercentageStrategy.default_params
                    (bar_at 2021 3 4 100.5) (out_of_market 100000)
                    (FixedPercentageStrategy.mkState None 106))) = [buy None] /\
  submitted (snd (FixedPercentageStrategy.next
                    FixedPercentageStrategy.default_params
                    (bar_at 2021 3 4 101) (out_of_market 100000)
                    (FixedPercentageStrategy.mkState None 106))) = [].
Proof.
  destruct last_sell_price_drives_rebuy as (_ & Hrun & Hsell & Hflat).
  split; [|split; [|split]].
  - apply Hrun. reflexivity.
  - apply (Hsell (bar_at 2021 3 3 106) (filled Sell 980 106)); reflexivity.
  - rewrite Hflat; [vm_compute; reflexivity | reflexivity | vm_compute; reflexivity].
  - rewrite Hflat; [vm_compute; reflexivity | reflexivity | vm_compute; reflexivity].
Defined.

(** ** The phase of the anchored-low strategy *)

Lemma anchor_low_next_phase (p : AnchorLowStrategy.Params) (dt : Data)
    (b : Broker) (s : AnchorLowStrategy.State) :
  AnchorLowStrategy.strategy_phase (fst (AnchorLowStrategy.next p dt b s)) =
  AnchorLowStrategy.strategy_phase s.
Proof.
  destruct s as [o ph low]. unfold AnchorLowStrategy.next. simpl.
  destruct o; [reflexivity|].
  destruct (Py.lt (close dt) low); simpl;
    split_tests; reflexivity.
Qed.

Lemma anchor_low_notify_phase (dt : Data) (o : Order)
    (s : AnchorLowStrategy.State) :
  AnchorLowStrategy.strategy_phase (fst (AnchorLowStrategy.notify_order dt o s)) =
  if completed (status o) && issell o
     && (AnchorLowStrategy.strategy_phase s =? 1)%Z
  then 2%Z
  else AnchorLowStrategy.strategy_phase s.
Proof.
  destruct s as [so ph low], o as [st t rq ex].
  unfold AnchorLowStrategy.notify_order, isbuy, issell. simpl.
  destruct st, t; simpl; try reflexivity.
  destruct (ph =? 1)%Z; reflexivity.
Qed.

(** C6.  In [AnchorLowStrategy]: the phase is 1 at the start; a bar that
    finds phase 1, no order in flight and no position submits a buy, whatever
    the price; the phase is still 1 at the end of every run from the start in
    which no sell has been filled, and the notification of a filled sell
    received in phase 1 makes it 2; and from a phase of 2, every run, however
    bars, fills, rejections and cancellations follow one another, raises
    nothing and ends in phase 2. *)
Theorem phase_goes_from_one_to_two_for_good :
  AnchorLowStrategy.strategy_phase AnchorLowStrategy.init = 1%Z /\
  (forall (p : AnchorLowStrategy.Params) (dt : Data) (b : Broker)
          (s : AnchorLowStrategy.State),
      AnchorLowStrategy.order s = None ->
      AnchorLowStrategy.strategy_phase s = 1%Z ->
      position_bool (position b) = false ->
      AnchorLowStrategy.order (fst (AnchorLowStrategy.next p dt b s)) =
      Some (buy None) /\
      snd (AnchorLowStrategy.next p dt b s) =
      [Printed (AnchorLowStrategy.InitialBuy (datetime dt)); Submit (buy None)]) /\
  (forall (p : AnchorLowStrategy.Params) (evs : list (Event unit)),
      existsb is_sell_fill evs = false ->
      exists s out,
        run (strategy AnchorLow) p evs AnchorLowStrategy.init = Py.Ok (s, out) /\
        AnchorLowStrategy.strategy_phase s = 1%Z) /\
  (forall (dt : Data) (o : Order) (s : AnchorLowStrategy.State),
      AnchorLowStrategy.strategy_phase s = 1%Z ->
      completed (status o) = true -> issell o = true ->
      AnchorLowStrategy.strategy_phase
        (fst (AnchorLowStrategy.notify_order dt o s)) = 2%Z) /\
  (forall (p : AnchorLowStrategy.Params) (evs : list (Event unit))
          (s : AnchorLowStrategy.State),
      AnchorLowStrategy.strategy_phase s = 2%Z ->
      exists s' out,
        run (strategy AnchorLow) p evs s = Py.Ok (s', out) /\
        AnchorLowStrategy.strategy_phase s' = 2%Z).
Proof.
  split; [reflexivity|]. split; [|split; [|split]].
  - intros p dt b [o ph low] Ho Hph Hflat. simpl in *. subst o ph.
    unfold AnchorLowStrategy.next. simpl.
    destruct (Py.lt (close dt) low); simpl; rewrite Hflat; split; reflexivity.
  - intros p evs Hno.
    apply (run_preserves (strategy AnchorLow) p
             (fun ev => negb (is_sell_fill ev))
             (fun s => AnchorLowStrategy.strategy_phase s = 1%Z)).
    + intros ev s Hev Hs. destruct ev as [dt o | ln dt b]; simpl in *.
      * exists (fst (AnchorLowStrategy.notify_order dt o s)),
               (snd (AnchorLowStrategy.notify_order dt o s)).
        rewrite <- surjective_pairing, anchor_low_notify_phase.
        apply negb_true_iff in Hev. rewrite Hev. auto.
      * exists (fst (AnchorLowStrategy.next p dt b s)),
               (snd (AnchorLowStrategy.next p dt b s)).
        rewrite <- surjective_pairing, anchor_low_next_phase. auto.
    + clear -Hno. induction evs as [|ev rest IH]; simpl in *; [reflexivity|].
      apply orb_false_iff in Hno as [H1 H2]. rewrite H1. simpl. auto.
    + reflexivity.
  - intros dt o s Hph Hc Hs.
    rewrite anchor_low_notify_phase, Hc, Hs, Hph. reflexivity.
  - intros p evs s Hph.
    apply (run_preserves (strategy AnchorLow) p (fun _ => true)
             (fun s => AnchorLowStrategy.strategy_phase s = 2%Z));
      auto using forallb_any.
    clear. intros ev s _ Hs. destruct ev as [dt o | ln dt b]; simpl in *.
    + exists (fst (AnchorLowStrategy.notify_order dt o s)),
             (snd (AnchorLowStrategy.notify_order dt o s)).
      rewrite <- surjective_pairing, anchor_low_notify_phase, Hs.
      split; [reflexivity|].
      destruct (completed (status o) && issell o && (2 =? 1)%Z); reflexivity.
    + exists (fst (AnchorLowStrategy.next p dt b s)),
             (snd (AnchorLowStrategy.next p dt b s)).
      rewrite <- surjective_pairing, anchor_low_next_phase. auto.
Qed.

Lemma phase_goes_from_one_to_two_for_good_witness :
  let p := AnchorLowStrategy.default_params in
  snd (AnchorLowStrategy.next p (bar_at 2021 3 1 100) (out_of_market 100000)
         AnchorLowStrategy.init) =
  [Printed (AnchorLowStrategy.InitialBuy (mkDate 2021 3 1)); Submit (buy None)] /\
  (exists s out,
      run (strategy AnchorLow) p
          [Bar tt (bar_at 2021 3 1 100) (out_of_market 100000);
           Notify (bar_at 2021 3 2 100) (filled Buy 980 100);
           Bar tt (bar_at 2021 3 2 115) (holding 980 100 2000)]
          AnchorLowStrategy.init = Py.Ok (s, out) /\
      AnchorLowStrategy.strategy_phase s = 1%Z) /\
  AnchorLowStrategy.strategy_phase
    (fst (AnchorLowStrategy.notify_order (bar_at 2021 3 3 115)
            (filled Sell 980 115)
            (AnchorLowStrategy.mkState (Some close_position) 1 100))) = 2%Z /\
  (exists s out,
      run (strategy AnchorLow) p
          [Bar tt (bar_at 2021 3 4 90) (out_of_market 100000);
           Notify (bar_at 2021 3 5 90)
                  (mkOrder Margin Buy None no_fill);
           Bar tt (bar_at 2021 3 5 91) (out_of_market 100000);
           Notify (bar_at 2021 3 8 91) (filled Buy 980 91);
           Bar tt (bar_at 2021 3 8 101) (holding 980 91 2000);
           Notify (bar_at 2021 3 9 101) (filled Sell 980 101)]
          (AnchorLowStrategy.mkState None 2 90) = Py.Ok (s, out) /\
      AnchorLowStrategy.strategy_phase s = 2%Z).
Proof.
  destruct phase_goes_from_one_to_two_for_good
    as (_ & Hfirst & Hone & Hsell & Htwo).
  split; [|split; [|split]].
  - apply Hfirst; reflexivity.
  - apply Hone. reflexivity.
  - apply Hsell; reflexivity.
  - apply Htwo. reflexivity.
Defined.

(** ** The monthly gate *)

(** C8.  In the three periodic strategies the gate compares the month of the
    bar, a number from 1 to 12, with [last_investment_month]: with no order
    in flight (and, for the take-profit strategy, no position), a bar whose
    month number is the recorded one does nothing at all, whatever its year.
    So on a series with a bar on 2020-03-02 and the next bar on 2021-03-01,
    both on or after the investment day, the first bar is evaluated and the
    second, which has all it takes for a buy but the month number, is not. *)
Theorem monthly_gate_ignores_year :
  (forall (p : FixedAutoInvestStrategy.Params) (dt : Data) (b : Broker)
          (s : FixedAutoInvestStrategy.State),
      FixedAutoInvestStrategy.order s = None ->
      month (datetime dt) = FixedAutoInvestStrategy.last_investment_month s ->
      FixedAutoInvestStrategy.next p dt b s = Py.Ok (s, [])) /\
  (forall (p : SmartAciOnlyStrategy.Params) (ln : SmartAciOnlyStrategy.Lines)
          (dt : Data) (b : Broker) (s : SmartAciOnlyStrategy.State),
      SmartAciOnlyStrategy.order s = None ->
      month (datetime dt) = SmartAciOnlyStrategy.last_investment_month s ->
      SmartAciOnlyStrategy.next p ln dt b s = Py.Ok (s, [])) /\
  (forall (p : SmartAciAndTakeProfitStrategy.Params)
          (ln : SmartAciAndTakeProfitStrategy.Lines)
          (dt : Data) (b : Broker) (s : SmartAciAndTakeProfitStrategy.State),
      SmartAciAndTakeProfitStrategy.order s = None ->
      position_bool (position b) = false ->
      month (datetime dt) = SmartAciAndTakeProfitStrategy.last_investment_month s ->
      SmartAciAndTakeProfitStrategy.next p ln dt b s = Py.Ok (s, [])) /\
  (year march_2020 <> year march_2021 /\
   month march_2020 = month march_2021 /\
   (1 <= day march_2020)%Z /\ (1 <= day march_2021)%Z /\
   (exists s1 out1,
       run (strategy FixedAutoInvest) FixedAutoInvestStrategy.default_params
           [Bar tt (mkData march_2020 1.25) (out_of_market 200000);
            Notify (mkData march_2020 1.25) (filled Buy 1600 1.25)]
           FixedAutoInvestStrategy.init = Py.Ok (s1, out1) /\
       submitted out1 = [buy (Some 1600%float)] /\
       FixedAutoInvestStrategy.order s1 = None /\
       Py.gt 198000 (FixedAutoInvestStrategy.investment_amount
                       FixedAutoInvestStrategy.default_params) = true /\
       FixedAutoInvestStrategy.next FixedAutoInvestStrategy.default_params
         (mkData march_2021 1.25) (holding 1600 1.25 198000) s1 =
       Py.Ok (s1, [])) /\
   (exists s1 out1,
       run (strategy SmartAciOnly) SmartAciOnlyStrategy.default_params
           [Bar (SmartAciOnlyStrategy.mkLines 1.5) (mkData march_2020 1.25)
                (out_of_market 200000);
            Notify (mkData march_2020 1.25) (filled Buy 4000 1.25)]
           SmartAciOnlyStrategy.init = Py.Ok (s1, out1) /\
       submitted out1 = [buy (Some 4000%float)] /\
       SmartAciOnlyStrategy.order s1 = None /\
       Py.lt 1.25 1.5 = true /\
       Py.gt 195000 (SmartAciOnlyStrategy.base_investment
                       SmartAciOnlyStrategy.default_params) = true /\
       SmartAciOnlyStrategy.next SmartAciOnlyStrategy.default_params
         (SmartAciOnlyStrategy.mkLines 1.5) (mkData march_2021 1.25)
         (holding 4000 1.25 195000) s1 = Py.Ok (s1, [])) /\
   (exists s1 out1,
       run (strategy SmartAciAndTakeProfit)
           SmartAciAndTakeProfitStrategy.default_params
           [Bar (SmartAciAndTakeProfitStrategy.mkLines 1.0)
                (mkData march_2020 1.25) (out_of_market 100000)]
           SmartAciAndTakeProfitStrategy.init = Py.Ok (s1, out1) /\
       out1 = [Printed (SmartAciAndTakeProfitStrategy.AboveBaseline march_2020)] /\
       SmartAciAndTakeProfitStrategy.order s1 = None /\
       Py.lt 1.25 1.5 = true /\
       SmartAciAndTakeProfitStrategy.next
         SmartAciAndTakeProfitStrategy.default_params
         (SmartAciAndTakeProfitStrategy.mkLines 1.5) (mkData march_2021 1.25)
         (out_of_market 100000) s1 = Py.Ok (s1, []))).
Proof.
  split; [|split; [|split]].
  - intros p dt b [o m] Ho Hm. simpl in *. subst o m.
    unfold FixedAutoInvestStrategy.next. simpl.
    rewrite Z.eqb_refl. reflexivity.
  - intros p ln dt b [o m] Ho Hm. simpl in *. subst o m.
    unfold SmartAciOnlyStrategy.next. simpl.
    rewrite Z.eqb_refl. reflexivity.
  - intros p ln dt b [o m] Ho Hflat Hm. simpl in *. subst o m.
    unfold SmartAciAndTakeProfitStrategy.next. simpl.
    rewrite Hflat. simpl. rewrite Z.eqb_refl. reflexivity.
  - split; [simpl; lia|]. split; [reflexivity|].
    split; [simpl; lia|]. split; [simpl; lia|].
    split; [|split];
      eexists; eexists; (split; [vm_compute; reflexivity|]);
      repeat split; vm_compute; reflexivity.
Qed.

Lemma monthly_gate_ignores_year_witness :
  FixedAutoInvestStrategy.next FixedAutoInvestStrategy.default_params
    (mkData march_2021 1.25) (out_of_market 198000)
    (FixedAutoInvestStrategy.mkState None 3) =
  Py.Ok (FixedAutoInvestStrategy.mkState None 3, []) /\
  SmartAciOnlyStrategy.next SmartAciOnlyStrategy.default_params
    (SmartAciOnlyStrategy.mkLines 1.5) (mkData march_2021 1.25)
    (out_of_market 195000) (SmartAciOnlyStrategy.mkState None 3) =
  Py.Ok (SmartAciOnlyStrategy.mkState None 3, []) /\
  SmartAciAndTakeProfitStrategy.next
    SmartAciAndTakeProfitStrategy.default_params
    (SmartAciAndTakeProfitStrategy.mkLines 1.5) (mkData march_2021 1.25)
    (out_of_market 100000) (SmartAciAndTakeProfitStrategy.mkState None 3) =
  Py.Ok (SmartAciAndTakeProfitStrategy.mkState None 3, []).
Proof.
  destruct monthly_gate_ignores_year as (H9 & H3 & H2 & _).
  split; [|split].
  - apply H9; reflexivity.
  - apply H3; reflexivity.
  - apply H2; reflexivity.
Defined.

(** ** The take-profit strategy *)

Lemma truediv_ok (a b : float) :
  Py.eq b 0 = false -> Py.truediv a b = Py.Ok (a / b)%float.
Proof. unfold Py.truediv, Py.eq. intros ->. reflexivity. Qed.

(** C9.  [SmartAciAndTakeProfitStrategy.next] never reads the cash: with no
    order in flight and no position, on an eligible day of a new month with
    the close (not zero) below the baseline, it submits a buy of
    base_investment / close, whatever the broker shows.  With 100.0 in cash
    against a base investment of 5000.0 it submits the buy, where
    [SmartAciOnlyStrategy] and [FixedAutoInvestStrategy] on the same bar and
    the same cash print that cash is short and submit nothing. *)
Theorem take_profit_variant_buys_without_cash_check :
  (forall (p : SmartAciAndTakeProfitStrategy.Params)
          (ln : SmartAciAndTakeProfitStrategy.Lines)
          (dt : Data) (b : Broker) (s : SmartAciAndTakeProfitStrategy.State),
      SmartAciAndTakeProfitStrategy.order s = None ->
      position_bool (position b) = false ->
      month (datetime dt) <> SmartAciAndTakeProfitStrategy.last_investment_month s ->
      (SmartAciAndTakeProfitStrategy.investment_day p <= day (datetime dt))%Z ->
      Py.lt (close dt) (SmartAciAndTakeProfitStrategy.ma_baseline ln) = true ->
      Py.eq (close dt) 0 = false ->
      let size_to_buy :=
        (SmartAciAndTakeProfitStrategy.base_investment p / close dt)%float in
      SmartAciAndTakeProfitStrategy.next p ln dt b s =
      Py.Ok (SmartAciAndTakeProfitStrategy.mkState
               (Some (buy (Some size_to_buy))) (month (datetime dt)),
             [Printed (SmartAciAndTakeProfitStrategy.BelowBaseline (datetime dt));
              Submit (buy (Some size_to_buy))])) /\
  (let dt := mkData march_2021 1.25 in
   let b := out_of_market 100 in
   Py.lt (get_cash b)
         (SmartAciAndTakeProfitStrategy.base_investment
            SmartAciAndTakeProfitStrategy.default_params) = true /\
   (exists s out,
       SmartAciAndTakeProfitStrategy.next
         SmartAciAndTakeProfitStrategy.default_params
         (SmartAciAndTakeProfitStrategy.mkLines 1.5) dt b
         SmartAciAndTakeProfitStrategy.init = Py.Ok (s, out) /\
       submitted out = [buy (Some 4000%float)]) /\
   (exists s out,
       SmartAciOnlyStrategy.next SmartAciOnlyStrategy.default_params
         (SmartAciOnlyStrategy.mkLines 1.5) dt b SmartAciOnlyStrategy.init =
       Py.Ok (s, out) /\
       out = [Printed (SmartAciOnlyStrategy.BelowBaseline march_2021);
              Printed (SmartAciOnlyStrategy.CashShort march_2021)]) /\
   (exists s out,
       FixedAutoInvestStrategy.next FixedAutoInvestStrategy.default_params
         dt b FixedAutoInvestStrategy.init = Py.Ok (s, out) /\
       out = [Printed (FixedAutoInvestStrategy.InvestmentDay march_2021);
              Printed (FixedAutoInvestStrategy.CashShort march_2021)])).
Proof.
  split.
  - intros p ln dt b [o m] Ho Hflat Hm Hd Hlt Hz size_to_buy.
    simpl in *. subst o.
    unfold SmartAciAndTakeProfitStrategy.next. simpl.
    rewrite Hflat. simpl.
    apply Z.eqb_neq in Hm. rewrite Hm.
    apply Z.geb_le in Hd. rewrite Hd. simpl.
    rewrite Hlt, (truediv_ok _ _ Hz). reflexivity.
  - split; [vm_compute; reflexivity|].
    split; [|split]; eexists; eexists; split; vm_compute; reflexivity.
Qed.

Lemma take_profit_variant_buys_without_cash_check_witness :
  SmartAciAndTakeProfitStrategy.next
    SmartAciAndTakeProfitStrategy.default_params
    (SmartAciAndTakeProfitStrategy.mkLines 1.5) (mkData march_2021 1.25)
    (out_of_market 100) SmartAciAndTakeProfitStrategy.init =
  Py.Ok (SmartAciAndTakeProfitStrategy.mkState
           (Some (buy (Some (5000.0 / 1.25)%float))) 3,
         [Printed (SmartAciAndTakeProfitStrategy.BelowBaseline march_2021);
          Submit (buy (Some (5000.0 / 1.25)%float))]).
Proof.
  apply (proj1 take_profit_variant_buys_without_cash_check
           SmartAciAndTakeProfitStrategy.default_params
           (SmartAciAndTakeProfitStrategy.mkLines 1.5) (mkData march_2021 1.25)
           (out_of_market 100) SmartAciAndTakeProfitStrategy.init).
  - reflexivity.
  - reflexivity.
  - simpl; lia.
  - simpl; lia.
  - vm_compute; reflexivity.
  - vm_compute; reflexivity.
Defined.

(** C10.  In [SmartAciAndTakeProfitStrategy], on a bar that finds no order in
    flight and a position whose gain (close - price) / price has reached
    [take_profit_pct], [next] submits the close of the position and returns:
    [last_investment_month] is what it was, whatever the date of the bar.  So
    with February recorded, a sell submitted on 2021-03-01 and filled, the
    bar of 2021-03-02, below the baseline, still submits the monthly buy, in
    the month of the sell. *)
Theorem take_profit_sell_skips_monthly_gate :
  (forall (p : SmartAciAndTakeProfitStrategy.Params)
          (ln : SmartAciAndTakeProfitStrategy.Lines)
          (dt : Data) (b : Broker) (s : SmartAciAndTakeProfitStrategy.State)
          (profit_pct : float),
      SmartAciAndTakeProfitStrategy.order s = None ->
      position_bool (position b) = true ->
      Py.truediv (close dt - price (position b)) (price (position b)) =
      Py.Ok profit_pct ->
      Py.ge profit_pct (SmartAciAndTakeProfitStrategy.take_profit_pct p) = true ->
      SmartAciAndTakeProfitStrategy.next p ln dt b s =
      Py.Ok (SmartAciAndTakeProfitStrategy.mkState (Some close_position)
               (SmartAciAndTakeProfitStrategy.last_investment_month s),
             [Printed (SmartAciAndTakeProfitStrategy.TakeProfitReached
                         (datetime dt)
                         (SmartAciAndTakeProfitStrategy.take_profit_pct p * 100)
                         (profit_pct * 100));
              Submit close_position])) /\
  (let p := SmartAciAndTakeProfitStrategy.default_params in
   let ln := SmartAciAndTakeProfitStrategy.mkLines 2.0 in
   let february := SmartAciAndTakeProfitStrategy.mkState None 2 in
   exists s1 out1 s2 out2 s3 out3,
     SmartAciAndTakeProfitStrategy.next p ln (bar_at 2021 3 1 1.6)
       (holding 4000 1.25 95000) february = Py.Ok (s1, out1) /\
     submitted out1 = [close_position] /\
     SmartAciAndTakeProfitStrategy.last_investment_month s1 = 2%Z /\
     SmartAciAndTakeProfitStrategy.notify_order (bar_at 2021 3 2 1.6)
       (filled Sell 4000 1.6) s1 = (s2, out2) /\
     SmartAciAndTakeProfitStrategy.next p ln (bar_at 2021 3 2 1.6)
       (out_of_market 101400) s2 = Py.Ok (s3, out3) /\
     submitted out3 = [buy (Some 3125%float)] /\
     SmartAciAndTakeProfitStrategy.last_investment_month s3 = 3%Z /\
     run (strategy SmartAciAndTakeProfit) p
         [Bar ln (bar_at 2021 3 1 1.6) (holding 4000 1.25 95000);
          Notify (bar_at 2021 3 2 1.6) (filled Sell 4000 1.6);
          Bar ln (bar_at 2021 3 2 1.6) (out_of_market 101400)]
         february = Py.Ok (s3, out1 ++ out2 ++ out3)).
Proof.
  split.
  - intros p ln dt b [o m] profit_pct Ho Hpos Hdiv Hge. simpl in *. subst o.
    unfold SmartAciAndTakeProfitStrategy.next. simpl.
    rewrite Hpos, Hdiv. simpl. rewrite Hge. reflexivity.
  - do 6 eexists.
    split; [vm_compute; reflexivity|].
    split; [vm_compute; reflexivity|].
    split; [vm_compute; reflexivity|].
    split; [vm_compute; reflexivity|].
    split; [vm_compute; reflexivity|].
    split; [vm_compute; reflexivity|].
    split; vm_compute; reflexivity.
Qed.

Lemma take_profit_sell_skips_monthly_gate_witness :
  exists out,
    SmartAciAndTakeProfitStrategy.next
      SmartAciAndTakeProfitStrategy.default_params
      (SmartAciAndTakeProfitStrategy.mkLines 2.0) (bar_at 2021 3 1 1.6)
      (holding 4000 1.25 95000) (SmartAciAndTakeProfitStrategy.mkState None 2) =
    Py.Ok (SmartAciAndTakeProfitStrategy.mkState (Some close_position) 2, out).
Proof.
  eexists.
  apply (proj1 take_profit_sell_skips_monthly_gate
           SmartAciAndTakeProfitStrategy.default_params
           (SmartAciAndTakeProfitStrategy.mkLines 2.0) (bar_at 2021 3 1 1.6)
           (holding 4000 1.25 95000)
           (SmartAciAndTakeProfitStrategy.mkState None 2)
           ((1.6 - 1.25) / 1.25)%float).
  - reflexivity.
  - reflexivity.
  - vm_compute; reflexivity.
  - vm_compute; reflexivity.
Defined.

(** * Further properties of the callbacks *)

(** ** More on the order of floats *)

Lemma SFcompare_nan_l (f : spec_float) : SFcompare S754_nan f = None.
Proof. destruct f; reflexivity. Qed.

Lemma SFcompare_nan_r (f : spec_float) : SFcompare f S754_nan = None.
Proof. destruct f; reflexivity. Qed.

Lemma SFeqb_self_nan (f : spec_float) : SFeqb f f = false -> f = S754_nan.
Proof.
  unfold SFeqb. destruct f as [s|s| |s m e]; auto; intros H;
    rewrite SFcompare_refl in H; congruence.
Qed.

Lemma SFcompare_swap (a b : spec_float) (c : comparison) :
  SFcompare a b = Some c -> SFcompare b a = Some (CompOpp c).
Proof.
  destruct a as [sa|sa| |sa ma ea], b as [sb|sb| |sb mb eb]; simpl;
    try congruence; try (destruct sa); try (destruct sb); simpl;
    intros H; inversion H; subst; clear H; try reflexivity;
    rewrite (Z.compare_antisym ea eb);
    change (Pos.compare_cont Eq mb ma) with (Pos.compare mb ma);
    change (Pos.compare_cont Eq ma mb) with (Pos.compare ma mb);
    rewrite (Pos.compare_antisym ma mb);
    destruct (Z.compare ea eb); simpl; try reflexivity;
    destruct (Pos.compare ma mb); reflexivity.
Qed.

Lemma SFcompare_some (a b : spec_float) :
  a <> S754_nan -> b <> S754_nan -> exists c, SFcompare a b = Some c.
Proof. destruct a, b; simpl; intros; try congruence; eauto. Qed.

Lemma number_not_nan (a : float) : is_number a = true -> Prim2SF a <> S754_nan.
Proof.
  unfold is_number, Py.eq. rewrite FloatAxioms.eqb_spec. unfold SFeqb.
  intros H E. rewrite E in H. simpl in H. congruence.
Qed.

Lemma nan_is_nan (a : float) : is_number a = false -> Prim2SF a = S754_nan.
Proof.
  unfold is_number, Py.eq. rewrite FloatAxioms.eqb_spec. apply SFeqb_self_nan.
Qed.

(** Every comparison with a NaN is false. *)
Lemma nan_compares_false (a b : float) :
  is_number a = false ->
  Py.lt a b = false /\ Py.lt b a = false /\
  Py.le a b = false /\ Py.le b a = false /\
  Py.eq a b = false /\ Py.eq b a = false.
Proof.
  intros H. apply nan_is_nan in H.
  unfold Py.lt, Py.le, Py.eq.
  rewrite !ltb_spec, !leb_spec, !FloatAxioms.eqb_spec.
  unfold SFltb, SFleb, SFeqb.
  rewrite H, SFcompare_nan_l, SFcompare_nan_r. repeat split; reflexivity.
Qed.

(** On numbers the order is total. *)
Lemma not_lt_le (a b : float) :
  is_number a = true -> is_number b = true ->
  Py.lt a b = false -> Py.le b a = true.
Proof.
  intros Ha Hb. apply number_not_nan in Ha, Hb.
  unfold Py.lt, Py.le. rewrite ltb_spec, leb_spec. unfold SFltb, SFleb.
  destruct (SFcompare_some _ _ Ha Hb) as [c Hc].
  rewrite Hc, (SFcompare_swap _ _ _ Hc). destruct c; simpl; congruence.
Qed.

(** ** What every strategy does with notifications and orders *)

Ltac unfold_next :=
  unfold total, DualMACrossoverStrategy.next, BollingerBandsStrategy.next,
    MacdStrategy.next, DualConfirmationStrategy.next,
    SmartAciAndTakeProfitStrategy.next, SmartAciOnlyStrategy.next,
    FixedPercentageStrategy.next, FixedAutoInvestStrategy.next,
    AnchorLowStrategy.next, Py.truediv in *.

Ltac unfold_notify :=
  unfold DualMACrossoverStrategy.notify_order,
    BollingerBandsStrategy.notify_order, MacdStrategy.notify_order,
    DualConfirmationStrategy.notify_order, notify_order_plain,
    SmartAciAndTakeProfitStrategy.notify_order,
    SmartAciOnlyStrategy.notify_order, FixedPercentageStrategy.notify_order,
    FixedAutoInvestStrategy.notify_order, AnchorLowStrategy.notify_order,
    isbuy, issell in *.

(** Case analysis on every test, keeping what each test gave. *)
Ltac split_tests_eqn :=
  repeat match goal with
         | |- context [if ?c then _ else _] => destruct c eqn:?; simpl
         end.

Lemma submitted_app {M : Type} (a b : list (Effect M)) :
  submitted (a ++ b) = submitted a ++ submitted b.
Proof. unfold submitted. apply flat_map_app. Qed.

(** X1.  In each of the nine strategies, [notify_order] never submits an
    order; it forgets the tracked order when the status is [Completed],
    [Canceled], [Margin] or [Rejected], whichever order the notification is
    about, and keeps it on every other status ([Submitted], [Accepted],
    [Partial], [Expired], [Created]). *)
Theorem notification_clears_on_terminal_status
    (v : Variant) (dt : Data) (o : Order) (s : State (strategy v)) :
  submitted (snd (on_order (strategy v) dt o s)) = [] /\
  tracked (strategy v) (fst (on_order (strategy v) dt o s)) =
  if terminal (status o) then None else tracked (strategy v) s.
Proof.
  destruct o as [st t rq ex].
  destruct v; simpl in *; unfold_notify; destruct s; simpl;
    destruct st, t; simpl; split; try reflexivity;
    match goal with
    | |- context [(?ph =? 1)%Z] => destruct (ph =? 1)%Z; reflexivity
    end.
Qed.

Lemma notification_without_effect
    (v : Variant) (dt : Data) (o : Order) (s : State (strategy v)) :
  terminal (status o) = false ->
  on_order (strategy v) dt o s = (s, []).
Proof.
  destruct o as [st t rq ex].
  destruct v; simpl in *; unfold_notify; destruct s; simpl;
    destruct st; simpl; intros H; try discriminate H; reflexivity.
Qed.

(** X2.  In each of the nine strategies, a call of [next] that finds no order
    in flight and returns has submitted at most one order, and the order it
    tracks afterwards is the one it submitted: none tracked when none was
    submitted. *)
Theorem step_tracks_what_it_submits
    (v : Variant) (p : Params (strategy v)) (ln : Lines (strategy v))
    (dt : Data) (b : Broker) (s s' : State (strategy v))
    (out : list (Effect (Msg (strategy v)))) :
  tracked (strategy v) s = None ->
  on_bar (strategy v) p ln dt b s = Py.Ok (s', out) ->
  submitted out =
  match tracked (strategy v) s' with Some o => [o] | None => [] end.
Proof.
  intros Ho H. revert H.
  destruct v; simpl in *; unfold_next; destruct s; simpl in *; subst;
    split_tests; intros H; inversion H; subst; reflexivity.
Qed.

Lemma step_tracks_what_it_submits_witness :
  let dt := bar_at 2021 3 1 1.25 in
  let b := out_of_market 200000 in
  let s' := FixedAutoInvestStrategy.mkState (Some (buy (Some 1600%float))) 3 in
  let out := [Printed (FixedAutoInvestStrategy.InvestmentDay (mkDate 2021 3 1));
              Submit (buy (Some 1600%float))] in
  on_bar (strategy FixedAutoInvest) FixedAutoInvestStrategy.default_params tt
    dt b FixedAutoInvestStrategy.init = Py.Ok (s', out) /\
  submitted out = [buy (Some 1600%float)].
Proof.
  split; [vm_compute; reflexivity|].
  apply (step_tracks_what_it_submits FixedAutoInvest
           FixedAutoInvestStrategy.default_params tt (bar_at 2021 3 1 1.25)
           (out_of_market 200000) FixedAutoInvestStrategy.init
           (FixedAutoInvestStrategy.mkState (Some (buy (Some 1600%float))) 3)).
  - reflexivity.
  - vm_compute; reflexivity.
Defined.

Lemma step_waits
    (v : Variant) (p : Params (strategy v)) (ln : Lines (strategy v))
    (dt : Data) (b : Broker) (s : State (strategy v)) (o : Order) :
  tracked (strategy v) s = Some o ->
  on_bar (strategy v) p ln dt b s = Py.Ok (s, []).
Proof.
  destruct v; simpl in *; intros H; unfold_next; rewrite H; reflexivity.
Qed.

(** A run that returns is made of calls that return. *)
Lemma run_cons_ok (S : Strategy) (p : Params S) (ev : Event (Lines S))
    (rest : list (Event (Lines S))) (s s' : State S)
    (out : list (Effect (Msg S))) :
  run S p (ev :: rest) s = Py.Ok (s', out) ->
  exists s1 out1 out2,
    deliver S p ev s = Py.Ok (s1, out1) /\
    run S p rest s1 = Py.Ok (s', out2) /\
    out = out1 ++ out2.
Proof.
  rewrite run_cons.
  destruct (deliver S p ev s) as [[s1 out1]|e]; cbn [Py.bind fst snd];
    [|discriminate].
  destruct (run S p rest s1) as [[s2 out2]|e] eqn:E2; cbn [Py.bind fst snd];
    [|discriminate].
  intros H. inversion H; subst. exists s1, out1, out2. auto.
Qed.

(** X3.  In each of the nine strategies, while an order is tracked the
    strategy waits: over any sequence of bars and of notifications whose
    status is not [Completed], [Canceled], [Margin] or [Rejected], the run
    raises nothing, prints and submits nothing, and ends with every field as
    it was.  So an order reported [Expired] (or left [Partial]) and never
    reported otherwise stops the strategy for the rest of the run. *)
Theorem in_flight_strategy_waits
    (v : Variant) (p : Params (strategy v))
    (evs : list (Event (Lines (strategy v)))) (s : State (strategy v))
    (o : Order) :
  tracked (strategy v) s = Some o ->
  forallb keeps_waiting evs = true ->
  run (strategy v) p evs s = Py.Ok (s, []).
Proof.
  intros Ho. induction evs as [|ev rest IH]; intros Hall; [reflexivity|].
  simpl in Hall. apply andb_prop in Hall as [Hev Hrest].
  rewrite run_cons.
  assert (E : deliver (strategy v) p ev s = Py.Ok (s, [])).
  { destruct ev as [dt o' | ln dt b]; simpl.
    - unfold keeps_waiting in Hev. simpl in Hev.
      apply negb_true_iff in Hev.
      rewrite (notification_without_effect v dt o' s Hev). reflexivity.
    - apply (step_waits v p ln dt b s o Ho). }
  rewrite E. cbn [Py.bind fst snd]. rewrite (IH Hrest). reflexivity.
Qed.

Lemma in_flight_strategy_waits_witness :
  let s := AnchorLowStrategy.mkState (Some (buy None)) 1 100 in
  run (strategy AnchorLow) AnchorLowStrategy.default_params
      [Notify (bar_at 2021 3 2 90) (mkOrder Accepted Buy None no_fill);
       Bar tt (bar_at 2021 3 2 90) (out_of_market 100000);
       Notify (bar_at 2021 3 3 80) (mkOrder Expired Buy None no_fill);
       Bar tt (bar_at 2021 3 3 80) (out_of_market 100000);
       Bar tt (bar_at 2021 3 4 200) (out_of_market 100000)] s =
  Py.Ok (s, []).
Proof.
  apply (in_flight_strategy_waits AnchorLow AnchorLowStrategy.default_params
           _ (AnchorLowStrategy.mkState (Some (buy None)) 1 100) (buy None));
    reflexivity.
Defined.

Lemma deliver_orders_bound
    (v : Variant) (p : Params (strategy v))
    (ev : Event (Lines (strategy v))) (s s1 : State (strategy v))
    (out1 : list (Effect (Msg (strategy v)))) :
  deliver (strategy v) p ev s = Py.Ok (s1, out1) ->
  length (submitted out1) + in_flight (tracked (strategy v) s) <=
  (if is_terminal_notice ev then 1 else 0) +
  in_flight (tracked (strategy v) s1).
Proof.
  destruct ev as [dt o | ln dt b]; cbn [deliver is_terminal_notice].
  - intros H. inversion H as [H'].
    destruct (notification_clears_on_terminal_status v dt o s) as [Hs Ht].
    rewrite H' in Hs, Ht. cbn [fst snd] in Hs, Ht. rewrite Hs, Ht.
    destruct (terminal (status o)); simpl;
      destruct (tracked (strategy v) s); simpl; lia.
  - intros H. destruct (tracked (strategy v) s) as [o|] eqn:Ho.
    + rewrite (step_waits v p ln dt b s o Ho) in H. inversion H; subst.
      rewrite Ho. simpl. lia.
    + rewrite (step_tracks_what_it_submits v p ln dt b s s1 out1 Ho H).
      destruct (tracked (strategy v) s1); simpl; lia.
Qed.

(** X4.  In each of the nine strategies, over any run that returns, however
    bars and notifications alternate, the orders submitted, plus the one in
    flight at the start if any, are at most the notifications with status
    [Completed], [Canceled], [Margin] or [Rejected] delivered in the run,
    plus the one in flight at the end if any: a strategy never has two orders
    in flight. *)
Theorem orders_bounded_by_terminal_notices
    (v : Variant) (p : Params (strategy v))
    (evs : list (Event (Lines (strategy v)))) :
  forall (s s' : State (strategy v)) (out : list (Effect (Msg (strategy v)))),
    run (strategy v) p evs s = Py.Ok (s', out) ->
    length (submitted out) + in_flight (tracked (strategy v) s) <=
    count_terminal evs + in_flight (tracked (strategy v) s').
Proof.
  induction evs as [|ev rest IH]; intros s s' out H.
  - simpl in H. inversion H; subst. simpl. lia.
  - apply run_cons_ok in H as (s1 & out1 & out2 & E1 & E2 & ->).
    apply deliver_orders_bound in E1. apply IH in E2.
    rewrite submitted_app, length_app.
    unfold count_terminal in *. simpl.
    destruct (is_terminal_notice ev); simpl; lia.
Qed.

Lemma orders_bounded_by_terminal_notices_witness :
  exists s' out,
    run (strategy AnchorLow) AnchorLowStrategy.default_params
        [Bar tt (bar_at 2021 3 1 100) (out_of_market 100000);
         Bar tt (bar_at 2021 3 2 101) (out_of_market 100000);
         Notify (bar_at 2021 3 3 100) (filled Buy 980 100);
         Bar tt (bar_at 2021 3 3 116) (holding 980 100 2000);
         Bar tt (bar_at 2021 3 4 117) (holding 980 100 2000)]
        AnchorLowStrategy.init = Py.Ok (s', out) /\
    length (submitted out) + 0 <= 1 + in_flight (AnchorLowStrategy.order s').
Proof.
  eexists; eexists. split; [vm_compute; reflexivity|].
  apply (orders_bounded_by_terminal_notices AnchorLow
           AnchorLowStrategy.default_params
           [Bar tt (bar_at 2021 3 1 100) (out_of_market 100000);
            Bar tt (bar_at 2021 3 2 101) (out_of_market 100000);
            Notify (bar_at 2021 3 3 100) (filled Buy 980 100);
            Bar tt (bar_at 2021 3 3 116) (holding 980 100 2000);
            Bar tt (bar_at 2021 3 4 117) (holding 980 100 2000)]
           AnchorLowStrategy.init).
  vm_compute; reflexivity.
Defined.


(** ** Long only *)

Lemma trades_follow_the_position_bool
    (v : Variant) (p : Params (strategy v)) (ln : Lines (strategy v))
    (dt : Data) (b : Broker) (s s' : State (strategy v))
    (out : list (Effect (Msg (strategy v)))) :
  on_bar (strategy v) p ln dt b s = Py.Ok (s', out) ->
  forallb (fun o =>
             (negb (issell o) || position_bool (position b))
             && (negb (isbuy o) || accumulates v
                 || negb (position_bool (position b))))
          (submitted out) = true.
Proof.
  intros H. revert H.
  destruct (position_bool (position b)) eqn:Hpos.
  all: destruct v; simpl in *; unfold_next; rewrite ?Hpos; simpl;
    destruct s as [so]; simpl in *; destruct so; simpl;
    split_tests; intros H; inversion H; subst; reflexivity.
Qed.

(** X5.  In each of the nine strategies, an order submitted by a call of
    [next] that returns is a sell only if the broker shows a position on
    that bar; and in the seven strategies other than [SmartAciOnlyStrategy]
    and [FixedAutoInvestStrategy] it is a buy only if the broker shows no
    position. *)
Theorem trades_follow_the_position
    (v : Variant) (p : Params (strategy v)) (ln : Lines (strategy v))
    (dt : Data) (b : Broker) (s s' : State (strategy v))
    (out : list (Effect (Msg (strategy v)))) (o : Order) :
  on_bar (strategy v) p ln dt b s = Py.Ok (s', out) ->
  In o (submitted out) ->
  (issell o = true -> position_bool (position b) = true) /\
  (isbuy o = true -> accumulates v = false ->
   position_bool (position b) = false).
Proof.
  intros H Hin.
  pose proof (trades_follow_the_position_bool v p ln dt b s s' out H) as A.
  rewrite forallb_forall in A. specialize (A o Hin).
  apply andb_prop in A as [A1 A2].
  split.
  - intros Hs. rewrite Hs in A1. exact A1.
  - intros Hb Hacc. rewrite Hb, Hacc in A2. simpl in A2.
    apply negb_true_iff in A2. exact A2.
Qed.

Lemma trades_follow_the_position_witness :
  let b := holding 980 100 2000 in
  let out := snd (FixedPercentageStrategy.next
                    FixedPercentageStrategy.default_params
                    (bar_at 2021 3 2 106) b FixedPercentageStrategy.init) in
  In close_position (submitted out) /\
  (issell close_position = true -> position_bool (position b) = true) /\
  (isbuy close_position = true -> accumulates FixedPercentage = false ->
   position_bool (position b) = false).
Proof.
  split; [vm_compute; auto|].
  apply (trades_follow_the_position FixedPercentage
           FixedPercentageStrategy.default_params tt (bar_at 2021 3 2 106)
           (holding 980 100 2000) FixedPercentageStrategy.init
           (fst (FixedPercentageStrategy.next
                   FixedPercentageStrategy.default_params
                   (bar_at 2021 3 2 106) (holding 980 100 2000)
                   FixedPercentageStrategy.init))
           (snd (FixedPercentageStrategy.next
                   FixedPercentageStrategy.default_params
                   (bar_at 2021 3 2 106) (holding 980 100 2000)
                   FixedPercentageStrategy.init))
           close_position).
  - vm_compute; reflexivity.
  - vm_compute; auto.
Defined.

(** X6.  [SmartAciOnlyStrategy] and [FixedAutoInvestStrategy] have no exit:
    over any run that returns, every order they submit is a buy with an
    explicit size. *)
Theorem accumulating_strategies_only_buy
    (v : Variant) (p : Params (strategy v))
    (evs : list (Event (Lines (strategy v)))) :
  accumulates v = true ->
  forall (s s' : State (strategy v)) (out : list (Effect (Msg (strategy v)))),
    run (strategy v) p evs s = Py.Ok (s', out) ->
    forall o, In o (submitted out) ->
              isbuy o = true /\ requested o <> None.
Proof.
  intros Hacc.
  assert (Hstep : forall ev s s1 out1,
             deliver (strategy v) p ev s = Py.Ok (s1, out1) ->
             forall o, In o (submitted out1) ->
                       isbuy o = true /\ requested o <> None).
  { intros [dt o' | ln dt b] s s1 out1; cbn [deliver].
    - intros H o Hin. inversion H as [H'].
      pose proof (proj1 (notification_clears_on_terminal_status v dt o' s)) as N.
      rewrite H' in N. cbn [snd] in N. rewrite N in Hin. contradiction.
    - revert Hacc. destruct v; simpl; try discriminate; intros _;
        unfold_next; destruct s as [so m]; simpl; destruct so as [t|]; simpl;
        split_tests; intros H; inversion H; subst; simpl;
        intros o Hin; repeat (destruct Hin as [Hin|Hin]; [subst o|]);
        try contradiction; (split; [reflexivity | discriminate]). }
  induction evs as [|ev rest IH]; intros s s' out H o Hin.
  - simpl in H. inversion H; subst. contradiction.
  - apply run_cons_ok in H as (s1 & out1 & out2 & E1 & E2 & ->).
    rewrite submitted_app in Hin. apply in_app_or in Hin as [Hin|Hin].
    + exact (Hstep ev s s1 out1 E1 o Hin).
    + exact (IH s1 s' out2 E2 o Hin).
Qed.

Lemma accumulating_strategies_only_buy_witness :
  exists s' out,
    run (strategy FixedAutoInvest) FixedAutoInvestStrategy.default_params
        [Bar tt (bar_at 2021 3 1 1.25) (out_of_market 200000);
         Notify (bar_at 2021 3 2 1.25) (filled Buy 1600 1.25);
         Bar tt (bar_at 2021 4 1 1.25) (holding 1600 1.25 198000)]
        FixedAutoInvestStrategy.init = Py.Ok (s', out) /\
    In (buy (Some 1600%float)) (submitted out) /\
    isbuy (buy (Some 1600%float)) = true /\
    requested (buy (Some 1600%float)) <> None.
Proof.
  eexists; eexists. split; [vm_compute; reflexivity|].
  split; [vm_compute; auto|].
  eapply (accumulating_strategies_only_buy FixedAutoInvest
           FixedAutoInvestStrategy.default_params
           [Bar tt (bar_at 2021 3 1 1.25) (out_of_market 200000);
            Notify (bar_at 2021 3 2 1.25) (filled Buy 1600 1.25);
            Bar tt (bar_at 2021 4 1 1.25) (holding 1600 1.25 198000)]
           eq_refl FixedAutoInvestStrategy.init).
  - vm_compute; reflexivity.
  - vm_compute; auto.
Defined.


(** ** One buy for a month number *)

Lemma buys_app {M : Type} (a b : list (Effect M)) :
  buys (a ++ b) = buys a ++ buys b.
Proof. unfold buys. rewrite submitted_app. apply filter_app. Qed.

Section OneBuyAMonth.

Variable S : Strategy.
Variable p : Params S.
Variable recorded_month : State S -> Z.
Variable m : Z.

Hypothesis recorded_stays :
  forall ev s s1 out1,
    in_month m ev = true -> recorded_month s = m ->
    deliver S p ev s = Py.Ok (s1, out1) ->
    buys out1 = [] /\ recorded_month s1 = m.

Hypothesis buying_records :
  forall ev s s1 out1,
    in_month m ev = true ->
    deliver S p ev s = Py.Ok (s1, out1) ->
    buys out1 = [] \/ (length (buys out1) = 1 /\ recorded_month s1 = m).

Lemma run_recorded_month (evs : list (Event (Lines S))) :
  forall s s' out,
    forallb (in_month m) evs = true -> recorded_month s = m ->
    run S p evs s = Py.Ok (s', out) ->
    buys out = [] /\ recorded_month s' = m.
Proof.
  induction evs as [|ev rest IH]; intros s s' out Hall Hs H.
  - simpl in H. inversion H; subst. auto.
  - simpl in Hall. apply andb_prop in Hall as [Hev Hrest].
    apply run_cons_ok in H as (s1 & out1 & out2 & E1 & E2 & ->).
    destruct (recorded_stays ev s s1 out1 Hev Hs E1) as [B1 M1].
    destruct (IH s1 s' out2 Hrest M1 E2) as [B2 M2].
    rewrite buys_app, B1, B2. auto.
Qed.

Lemma run_one_buy (evs : list (Event (Lines S))) :
  forall s s' out,
    forallb (in_month m) evs = true ->
    run S p evs s = Py.Ok (s', out) ->
    length (buys out) <= 1.
Proof.
  induction evs as [|ev rest IH]; intros s s' out Hall H.
  - simpl in H. inversion H; subst. simpl. lia.
  - simpl in Hall. apply andb_prop in Hall as [Hev Hrest].
    apply run_cons_ok in H as (s1 & out1 & out2 & E1 & E2 & ->).
    rewrite buys_app, length_app.
    destruct (buying_records ev s s1 out1 Hev E1) as [B1 | [B1 M1]].
    + rewrite B1. simpl. exact (IH s1 s' out2 Hrest E2).
    + destruct (run_recorded_month rest s1 s' out2 Hrest M1 E2) as [B2 _].
      rewrite B1, B2. simpl. lia.
Qed.

End OneBuyAMonth.

Ltac month_recorded :=
  match goal with
  | H : (month (datetime _) =? _)%Z = true |- _ =>
      apply Z.eqb_eq in H; subst
  end.

Ltac notice_case o :=
  unfold_notify; destruct o as [st t rq ex]; simpl;
  destruct st, t; simpl; intros _ H; inversion H; subst; auto.

Ltac bar_case so :=
  intros Hev; month_recorded; unfold_next; simpl; rewrite ?Z.eqb_refl;
  destruct so; simpl; split_tests; intros H; inversion H; subst; auto.

Ltac one_buy_obligations :=
  [> intros [dt o | ln dt b] [so l] s1 out1 Hev Hl; simpl in *; subst l;
     revert Hev; [notice_case o | bar_case so]
   | intros [dt o | ln dt b] [so l] s1 out1 Hev; simpl in *;
     revert Hev; [notice_case o | bar_case so] ].

(** X7.  In each of the three periodic strategies, over any run that returns
    and whose bars are all dated in the same month number (of whatever
    years), from any state and however bars and notifications alternate, at
    most one buy is submitted. *)
Theorem one_buy_for_a_month_number
    (v : Variant) (p : Params (strategy v)) (m : Z)
    (evs : list (Event (Lines (strategy v))))
    (s s' : State (strategy v)) (out : list (Effect (Msg (strategy v)))) :
  monthly v = true ->
  forallb (in_month m) evs = true ->
  run (strategy v) p evs s = Py.Ok (s', out) ->
  length (buys out) <= 1.
Proof.
  intros Hv. revert s s' out.
  destruct v; simpl in Hv; try discriminate Hv; clear Hv; intros s s' out.
  - apply (run_one_buy (strategy SmartAciAndTakeProfit) p
             SmartAciAndTakeProfitStrategy.last_investment_month m);
      one_buy_obligations.
  - apply (run_one_buy (strategy SmartAciOnly) p
             SmartAciOnlyStrategy.last_investment_month m);
      one_buy_obligations.
  - apply (run_one_buy (strategy FixedAutoInvest) p
             FixedAutoInvestStrategy.last_investment_month m);
      one_buy_obligations.
Qed.

Lemma one_buy_for_a_month_number_witness :
  exists s' out,
    run (strategy FixedAutoInvest) FixedAutoInvestStrategy.default_params
        [Bar tt (mkData march_2020 1.25) (out_of_market 200000);
         Notify (mkData march_2020 1.25) (filled Buy 1600 1.25);
         Bar tt (bar_at 2020 3 16 1.25) (holding 1600 1.25 198000);
         Bar tt (mkData march_2021 1.25) (holding 1600 1.25 198000)]
        FixedAutoInvestStrategy.init = Py.Ok (s', out) /\
    buys out = [buy (Some 1600%float)] /\
    length (buys out) <= 1.
Proof.
  eexists; eexists. split; [vm_compute; reflexivity|].
  split; [vm_compute; reflexivity|].
  eapply (one_buy_for_a_month_number FixedAutoInvest
            FixedAutoInvestStrategy.default_params 3
            [Bar tt (mkData march_2020 1.25) (out_of_market 200000);
             Notify (mkData march_2020 1.25) (filled Buy 1600 1.25);
             Bar tt (bar_at 2020 3 16 1.25) (holding 1600 1.25 198000);
             Bar tt (mkData march_2021 1.25) (holding 1600 1.25 198000)]
            FixedAutoInvestStrategy.init).
  - reflexivity.
  - reflexivity.
  - vm_compute; reflexivity.
Defined.


(** ** When [next] raises *)

(** X8.  The calls of [next] that raise ZeroDivisionError are exactly these,
    all with no order in flight.  [FixedAutoInvestStrategy]: the gate fires,
    cash is above the amount and the close is zero.  [SmartAciOnlyStrategy]:
    the gate fires, the close is below the baseline, cash is above the base
    investment and the close is zero.  [SmartAciAndTakeProfitStrategy]: a
    position is held at an average price of zero (whatever the date), or no
    position is held, the gate fires, and the close is below the baseline
    and zero. *)
Theorem division_by_zero_conditions :
  (forall (p : FixedAutoInvestStrategy.Params) (dt : Data) (b : Broker)
          (s : FixedAutoInvestStrategy.State),
      raises (FixedAutoInvestStrategy.next p dt b s) =
      match FixedAutoInvestStrategy.order s with
      | Some _ => false
      | None =>
          gate_fires (datetime dt)
            (FixedAutoInvestStrategy.last_investment_month s)
            (FixedAutoInvestStrategy.investment_day p)
          && Py.gt (get_cash b) (FixedAutoInvestStrategy.investment_amount p)
          && Py.eq (close dt) 0
      end) /\
  (forall (p : SmartAciOnlyStrategy.Params) (ln : SmartAciOnlyStrategy.Lines)
          (dt : Data) (b : Broker) (s : SmartAciOnlyStrategy.State),
      raises (SmartAciOnlyStrategy.next p ln dt b s) =
      match SmartAciOnlyStrategy.order s with
      | Some _ => false
      | None =>
          gate_fires (datetime dt)
            (SmartAciOnlyStrategy.last_investment_month s)
            (SmartAciOnlyStrategy.investment_day p)
          && Py.lt (close dt) (SmartAciOnlyStrategy.ma_baseline ln)
          && Py.gt (get_cash b) (SmartAciOnlyStrategy.base_investment p)
          && Py.eq (close dt) 0
      end) /\
  (forall (p : SmartAciAndTakeProfitStrategy.Params)
          (ln : SmartAciAndTakeProfitStrategy.Lines)
          (dt : Data) (b : Broker) (s : SmartAciAndTakeProfitStrategy.State),
      raises (SmartAciAndTakeProfitStrategy.next p ln dt b s) =
      match SmartAciAndTakeProfitStrategy.order s with
      | Some _ => false
      | None =>
          if position_bool (position b)
          then Py.eq (price (position b)) 0
          else
            gate_fires (datetime dt)
              (SmartAciAndTakeProfitStrategy.last_investment_month s)
              (SmartAciAndTakeProfitStrategy.investment_day p)
            && Py.lt (close dt) (SmartAciAndTakeProfitStrategy.ma_baseline ln)
            && Py.eq (close dt) 0
      end).
Proof.
  split; [|split].
  - intros p dt b [so l]. unfold gate_fires, Py.eq. unfold_next. simpl.
    destruct so; [reflexivity|]. split_tests; reflexivity.
  - intros p ln dt b [so l]. unfold gate_fires, Py.eq. unfold_next. simpl.
    destruct so; [reflexivity|]. split_tests; reflexivity.
  - intros p ln dt b [so l]. unfold gate_fires, Py.eq. unfold_next. simpl.
    destruct so; [reflexivity|].
    destruct (position_bool (position b)); simpl; split_tests; reflexivity.
Qed.

(** ** The historical low as a running minimum *)

Lemma run_cons_intro (S : Strategy) (p : Params S) (ev : Event (Lines S))
    (rest : list (Event (Lines S))) (s s1 s' : State S)
    (out1 out2 : list (Effect (Msg S))) :
  deliver S p ev s = Py.Ok (s1, out1) ->
  run S p rest s1 = Py.Ok (s', out2) ->
  run S p (ev :: rest) s = Py.Ok (s', out1 ++ out2).
Proof.
  intros E1 E2. rewrite run_cons, E1. cbn [Py.bind fst snd].
  rewrite E2. reflexivity.
Qed.

Lemma anchor_low_step_bound (p : AnchorLowStrategy.Params) (dt : Data)
    (b : Broker) (s : AnchorLowStrategy.State) :
  AnchorLowStrategy.order s = None ->
  is_number (AnchorLowStrategy.historical_low s) = true ->
  is_number (close dt) = true ->
  is_number (AnchorLowStrategy.historical_low
               (fst (AnchorLowStrategy.next p dt b s))) = true /\
  Py.le (AnchorLowStrategy.historical_low
           (fst (AnchorLowStrategy.next p dt b s))) (close dt) = true.
Proof.
  intros Ho Hl Hc. rewrite anchor_low_next_low, Ho. unfold Py.min.
  destruct (Py.lt (close dt) (AnchorLowStrategy.historical_low s)) eqn:E.
  - auto using le_refl.
  - auto using not_lt_le.
Qed.

(** X9.  In [AnchorLowStrategy], over any run from the initial state,
    [historical_low] is never a NaN, even when bars carry NaN closes; and it
    is a lower bound of the close of every bar that was evaluated: if a bar
    with a close that is a number finds no order in flight, then at the end
    of the run, whatever follows that bar, [historical_low] is at most that
    close. *)
Theorem historical_low_bounds_evaluated_closes
    (p : AnchorLowStrategy.Params) (before after : list (Event unit))
    (dt : Data) (b : Broker) :
  exists s1 out1,
    run (strategy AnchorLow) p before AnchorLowStrategy.init = Py.Ok (s1, out1) /\
    is_number (AnchorLowStrategy.historical_low s1) = true /\
    (AnchorLowStrategy.order s1 = None ->
     is_number (close dt) = true ->
     exists s3 out3,
       run (strategy AnchorLow) p (Bar tt dt b :: after) s1 = Py.Ok (s3, out3) /\
       is_number (AnchorLowStrategy.historical_low s3) = true /\
       Py.le (AnchorLowStrategy.historical_low s3) (close dt) = true).
Proof.
  destruct (anchor_low_run_low p before AnchorLowStrategy.init)
    as (s1 & out1 & E1 & N1 & _); [vm_compute; reflexivity|].
  exists s1, out1. split; [exact E1|]. split; [exact N1|].
  intros Ho Hc.
  destruct (anchor_low_step_bound p dt b s1 Ho N1 Hc) as [N2 L2].
  destruct (anchor_low_run_low p after _ N2) as (s3 & out3 & E3 & N3 & L3).
  exists s3, (snd (AnchorLowStrategy.next p dt b s1) ++ out3).
  split; [|split; [exact N3 | exact (le_trans _ _ _ L3 L2)]].
  apply (run_cons_intro (strategy AnchorLow) p (Bar tt dt b) after s1
           (fst (AnchorLowStrategy.next p dt b s1)) s3); [|exact E3].
  simpl. rewrite <- surjective_pairing. reflexivity.
Qed.

Lemma historical_low_bounds_evaluated_closes_witness :
  let p := AnchorLowStrategy.default_params in
  exists s1 out1,
    run (strategy AnchorLow) p
        [Bar tt (bar_at 2021 3 1 100) (out_of_market 100000);
         Notify (bar_at 2021 3 2 100) (filled Buy 980 100)]
        AnchorLowStrategy.init = Py.Ok (s1, out1) /\
    AnchorLowStrategy.order s1 = None /\
    is_number (close (bar_at 2021 3 2 90)) = true /\
    exists s3 out3,
      run (strategy AnchorLow) p
          [Bar tt (bar_at 2021 3 2 90) (holding 980 100 2000);
           Bar tt (bar_at 2021 3 3 nan) (holding 980 100 2000);
           Bar tt (bar_at 2021 3 4 95) (holding 980 100 2000)] s1 =
      Py.Ok (s3, out3) /\
      is_number (AnchorLowStrategy.historical_low s3) = true /\
      Py.le (AnchorLowStrategy.historical_low s3)
            (close (bar_at 2021 3 2 90)) = true.
Proof.
  intros p.
  destruct (historical_low_bounds_evaluated_closes p
              [Bar tt (bar_at 2021 3 1 100) (out_of_market 100000);
               Notify (bar_at 2021 3 2 100) (filled Buy 980 100)]
              [Bar tt (bar_at 2021 3 3 nan) (holding 980 100 2000);
               Bar tt (bar_at 2021 3 4 95) (holding 980 100 2000)]
              (bar_at 2021 3 2 90) (holding 980 100 2000))
    as (s1 & out1 & E1 & _ & Hbound).
  exists s1, out1. split; [exact E1|].
  assert (Ho : AnchorLowStrategy.order s1 = None).
  { vm_compute in E1. inversion E1. reflexivity. }
  split; [exact Ho|]. split; [vm_compute; reflexivity|].
  apply Hbound; [exact Ho | vm_compute; reflexivity].
Defined.

(** X10.  In [AnchorLowStrategy], [historical_low] at the end of a run that
    returns is the value at the start or the close of one of the bars of the
    run: it is never a value that was not observed. *)
Theorem historical_low_is_an_observed_close
    (p : AnchorLowStrategy.Params) (evs : list (Event unit)) :
  forall (s s' : AnchorLowStrategy.State)
         (out : list (Effect AnchorLowStrategy.Msg)),
    run (strategy AnchorLow) p evs s = Py.Ok (s', out) ->
    AnchorLowStrategy.historical_low s' = AnchorLowStrategy.historical_low s \/
    exists ln dt b,
      In (Bar ln dt b) evs /\ AnchorLowStrategy.historical_low s' = close dt.
Proof.
  induction evs as [|ev rest IH]; intros s s' out H.
  - simpl in H. inversion H; subst. auto.
  - apply run_cons_ok in H as (s1 & out1 & out2 & E1 & E2 & ->).
    destruct (IH s1 s' out2 E2) as [Same | (ln & dt & b & Hin & Hc)].
    + rewrite Same. destruct ev as [dt o | ln dt b]; simpl in E1;
        inversion E1 as [E]; apply (f_equal fst) in E; simpl in E; subst s1.
      * left. apply anchor_low_notify_low.
      * rewrite anchor_low_next_low. unfold Py.min.
        destruct (AnchorLowStrategy.order s); [auto|].
        destruct (Py.lt (close dt) (AnchorLowStrategy.historical_low s));
          [right; exists ln, dt, b; simpl; auto | auto].
    + right. exists ln, dt, b. simpl. auto.
Qed.

Lemma historical_low_is_an_observed_close_witness :
  exists s' out,
    run (strategy AnchorLow) AnchorLowStrategy.default_params
        [Bar tt (bar_at 2021 3 1 100) (out_of_market 100000);
         Notify (bar_at 2021 3 2 100) (filled Buy 980 100);
         Bar tt (bar_at 2021 3 2 90) (holding 980 100 2000)]
        AnchorLowStrategy.init = Py.Ok (s', out) /\
    (AnchorLowStrategy.historical_low s' =
     AnchorLowStrategy.historical_low AnchorLowStrategy.init \/
     exists ln dt b,
       In (Bar ln dt b)
          [Bar tt (bar_at 2021 3 1 100) (out_of_market 100000);
           Notify (bar_at 2021 3 2 100) (filled Buy 980 100);
           Bar tt (bar_at 2021 3 2 90) (holding 980 100 2000)] /\
       AnchorLowStrategy.historical_low s' = close dt).
Proof.
  eexists; eexists. split; [vm_compute; reflexivity|].
  eapply (historical_low_is_an_observed_close
            AnchorLowStrategy.default_params _ AnchorLowStrategy.init).
  vm_compute; reflexivity.
Defined.


(** ** Missing values *)

Ltac nan_tests x :=
  match goal with
  | H : is_number x = false |- _ =>
      repeat match goal with
             | |- context [Py.lt x ?y] =>
                 rewrite (proj1 (nan_compares_false x y H))
             | |- context [Py.lt ?y x] =>
                 rewrite (proj1 (proj2 (nan_compares_false x y H)))
             | |- context [Py.le x ?y] =>
                 rewrite (proj1 (proj2 (proj2 (nan_compares_false x y H))))
             | |- context [Py.le ?y x] =>
                 rewrite (proj1 (proj2 (proj2 (proj2 (nan_compares_false x y H)))))
             | |- context [Py.gt x ?y] =>
                 change (Py.gt x y) with (Py.lt y x)
             | |- context [Py.gt ?y x] =>
                 change (Py.gt y x) with (Py.lt x y)
             | |- context [Py.ge x ?y] =>
                 change (Py.ge x y) with (Py.le y x)
             | |- context [Py.ge ?y x] =>
                 change (Py.ge y x) with (Py.le x y)
             end
  end.

(** X11.  A signal that is a NaN is a hold.  In [DualMACrossoverStrategy] and
    [MacdStrategy], a NaN crossover value; in [BollingerBandsStrategy], a NaN
    close, or NaN lower and middle bands; in [DualConfirmationStrategy], a
    NaN close or a NaN trend average: [next] prints nothing, submits nothing
    and changes nothing, with or without a position. *)
Theorem nan_signal_holds :
  (forall (p : DualMACrossoverStrategy.Params)
          (ln : DualMACrossoverStrategy.Lines) (dt : Data) (b : Broker)
          (s : DualMACrossoverStrategy.State),
      is_number (DualMACrossoverStrategy.crossover ln) = false ->
      DualMACrossoverStrategy.next p ln dt b s = (s, [])) /\
  (forall (p : MacdStrategy.Params) (ln : MacdStrategy.Lines) (dt : Data)
          (b : Broker) (s : MacdStrategy.State),
      is_number (MacdStrategy.crossover ln) = false ->
      MacdStrategy.next p ln dt b s = (s, [])) /\
  (forall (p : BollingerBandsStrategy.Params)
          (ln : BollingerBandsStrategy.Lines) (dt : Data) (b : Broker)
          (s : BollingerBandsStrategy.State),
      is_number (close dt) = false \/
      (is_number (BollingerBandsStrategy.bot ln) = false /\
       is_number (BollingerBandsStrategy.mid ln) = false) ->
      BollingerBandsStrategy.next p ln dt b s = (s, [])) /\
  (forall (p : DualConfirmationStrategy.Params)
          (ln : DualConfirmationStrategy.Lines) (dt : Data) (b : Broker)
          (s : DualConfirmationStrategy.State),
      is_number (close dt) = false \/
      is_number (DualConfirmationStrategy.trend_ma ln) = false ->
      DualConfirmationStrategy.next p ln dt b s = (s, [])).
Proof.
  split; [|split; [|split]].
  - intros p ln dt b [so] H. unfold DualMACrossoverStrategy.next. simpl.
    nan_tests (DualMACrossoverStrategy.crossover ln).
    destruct so, (position_bool (position b)); reflexivity.
  - intros p ln dt b [so] H. unfold MacdStrategy.next. simpl.
    nan_tests (MacdStrategy.crossover ln).
    destruct so, (position_bool (position b)); reflexivity.
  - intros p ln dt b [so] [H | [H1 H2]];
      unfold BollingerBandsStrategy.next; simpl.
    + nan_tests (close dt).
      destruct so, (position_bool (position b)); reflexivity.
    + nan_tests (BollingerBandsStrategy.bot ln).
      nan_tests (BollingerBandsStrategy.mid ln).
      destruct so, (position_bool (position b)); reflexivity.
  - intros p ln dt b [so] [H | H];
      unfold DualConfirmationStrategy.next; simpl.
    + nan_tests (close dt).
      destruct so, (position_bool (position b)); reflexivity.
    + nan_tests (DualConfirmationStrategy.trend_ma ln).
      destruct so, (position_bool (position b)); reflexivity.
Qed.

Lemma nan_signal_holds_witness :
  DualMACrossoverStrategy.next DualMACrossoverStrategy.default_params
    (DualMACrossoverStrategy.mkLines nan) (bar_at 2021 3 1 100)
    (out_of_market 100000) DualMACrossoverStrategy.init =
  (DualMACrossoverStrategy.init, []) /\
  MacdStrategy.next MacdStrategy.default_params (MacdStrategy.mkLines nan)
    (bar_at 2021 3 1 100) (holding 980 100 2000) MacdStrategy.init =
  (MacdStrategy.init, []) /\
  BollingerBandsStrategy.next BollingerBandsStrategy.default_params
    (BollingerBandsStrategy.mkLines nan nan) (bar_at 2021 3 1 100)
    (out_of_market 100000) BollingerBandsStrategy.init =
  (BollingerBandsStrategy.init, []) /\
  DualConfirmationStrategy.next DualConfirmationStrategy.default_params
    (DualConfirmationStrategy.mkLines nan 25) (bar_at 2021 3 1 100)
    (holding 980 100 2000) DualConfirmationStrategy.init =
  (DualConfirmationStrategy.init, []).
Proof.
  destruct nan_signal_holds as (H1 & H2 & H3 & H4).
  split; [|split; [|split]].
  - apply H1. vm_compute; reflexivity.
  - apply H2. vm_compute; reflexivity.
  - apply H3. right. split; vm_compute; reflexivity.
  - apply H4. right. vm_compute; reflexivity.
Defined.

(** X12.  A NaN close triggers nothing but the unconditional first buy.  On
    a bar with a NaN close and no order in flight, [AnchorLowStrategy] keeps
    [historical_low] and submits a buy only in phase 1 with no position;
    [FixedPercentageStrategy] submits a buy only with no position and a
    [last_sell_price] equal to zero. *)
Theorem nan_close_only_triggers_first_buy :
  (forall (p : AnchorLowStrategy.Params) (dt : Data) (b : Broker)
          (s : AnchorLowStrategy.State),
      is_number (close dt) = false ->
      AnchorLowStrategy.order s = None ->
      AnchorLowStrategy.historical_low (fst (AnchorLowStrategy.next p dt b s)) =
      AnchorLowStrategy.historical_low s /\
      submitted (snd (AnchorLowStrategy.next p dt b s)) =
      if (AnchorLowStrategy.strategy_phase s =? 1)%Z
         && negb (position_bool (position b))
      then [buy None] else []) /\
  (forall (p : FixedPercentageStrategy.Params) (dt : Data) (b : Broker)
          (s : FixedPercentageStrategy.State),
      is_number (close dt) = false ->
      FixedPercentageStrategy.order s = None ->
      submitted (snd (FixedPercentageStrategy.next p dt b s)) =
      if negb (position_bool (position b))
         && Py.eq (FixedPercentageStrategy.last_sell_price s) 0
      then [buy None] else []).
Proof.
  split.
  - intros p dt b [so ph low] H Ho. simpl in *. subst so.
    unfold AnchorLowStrategy.next. simpl.
    nan_tests (close dt). simpl.
    destruct (ph =? 1)%Z; simpl.
    + destruct (position_bool (position b)); simpl; auto.
    + destruct (ph =? 2)%Z; simpl;
        destruct (position_bool (position b)); simpl; auto.
  - intros p dt b [so lsp] H Ho. simpl in *. subst so.
    unfold FixedPercentageStrategy.next. simpl.
    nan_tests (close dt).
    destruct (position_bool (position b)); simpl; [reflexivity|].
    destruct (Py.eq lsp 0); reflexivity.
Qed.

Lemma nan_close_only_triggers_first_buy_witness :
  submitted (snd (AnchorLowStrategy.next AnchorLowStrategy.default_params
                    (bar_at 2021 3 1 nan) (out_of_market 100000)
                    (AnchorLowStrategy.mkState None 2 90))) = [] /\
  submitted (snd (FixedPercentageStrategy.next
                    FixedPercentageStrategy.default_params
                    (bar_at 2021 3 1 nan) (holding 980 100 2000)
                    (FixedPercentageStrategy.mkState None 106))) = [].
Proof.
  destruct nan_close_only_triggers_first_buy as (H1 & H2).
  split.
  - apply (H1 AnchorLowStrategy.default_params (bar_at 2021 3 1 nan)
              (out_of_market 100000) (AnchorLowStrategy.mkState None 2 90));
      vm_compute; reflexivity.
  - apply (H2 FixedPercentageStrategy.default_params (bar_at 2021 3 1 nan)
              (holding 980 100 2000)
              (FixedPercentageStrategy.mkState None 106));
      vm_compute; reflexivity.
Defined.


Lemma sub_nan_l (a b : float) :
  is_number a = false -> is_number (a - b)%float = false.
Proof.
  intros H. apply nan_is_nan in H. unfold is_number, Py.eq.
  rewrite FloatAxioms.eqb_spec, sub_spec, H. unfold SF64sub, SFsub.
  destruct (Prim2SF b); reflexivity.
Qed.

Lemma div_nan_l (a b : float) :
  is_number a = false -> is_number (a / b)%float = false.
Proof.
  intros H. apply nan_is_nan in H. unfold is_number, Py.eq.
  rewrite FloatAxioms.eqb_spec, div_spec, H. unfold SF64div, SFdiv.
  destruct (Prim2SF b); reflexivity.
Qed.

Lemma div_nan_r (a b : float) :
  is_number b = false -> is_number (a / b)%float = false.
Proof.
  intros H. apply nan_is_nan in H. unfold is_number, Py.eq.
  rewrite FloatAxioms.eqb_spec, div_spec, H. unfold SF64div, SFdiv.
  destruct (Prim2SF a); reflexivity.
Qed.

(** X13.  On a bar with a NaN close, the two strategies gated by the baseline
    submit nothing: [SmartAciOnlyStrategy] in every case, and
    [SmartAciAndTakeProfitStrategy] whenever the average price of a held
    position is not zero (the gain is then a NaN and the take-profit test
    fails).  [FixedAutoInvestStrategy] has no such gate: with no order in
    flight, the monthly gate firing and cash above the amount, it submits a
    buy whose size, amount / close, is a NaN. *)
Theorem nan_close_in_periodic_strategies :
  (forall (p : SmartAciOnlyStrategy.Params) (ln : SmartAciOnlyStrategy.Lines)
          (dt : Data) (b : Broker) (s : SmartAciOnlyStrategy.State),
      is_number (close dt) = false ->
      exists s' out,
        SmartAciOnlyStrategy.next p ln dt b s = Py.Ok (s', out) /\
        submitted out = []) /\
  (forall (p : SmartAciAndTakeProfitStrategy.Params)
          (ln : SmartAciAndTakeProfitStrategy.Lines)
          (dt : Data) (b : Broker) (s : SmartAciAndTakeProfitStrategy.State),
      is_number (close dt) = false ->
      Py.eq (price (position b)) 0 = false ->
      exists s' out,
        SmartAciAndTakeProfitStrategy.next p ln dt b s = Py.Ok (s', out) /\
        submitted out = []) /\
  (forall (p : FixedAutoInvestStrategy.Params) (dt : Data) (b : Broker)
          (s : FixedAutoInvestStrategy.State),
      is_number (close dt) = false ->
      FixedAutoInvestStrategy.order s = None ->
      gate_fires (datetime dt)
        (FixedAutoInvestStrategy.last_investment_month s)
        (FixedAutoInvestStrategy.investment_day p) = true ->
      Py.gt (get_cash b) (FixedAutoInvestStrategy.investment_amount p) = true ->
      let size_to_buy :=
        (FixedAutoInvestStrategy.investment_amount p / close dt)%float in
      is_number size_to_buy = false /\
      exists s' out,
        FixedAutoInvestStrategy.next p dt b s = Py.Ok (s', out) /\
        submitted out = [buy (Some size_to_buy)]).
Proof.
  split; [|split].
  - intros p ln dt b [so l] H. unfold SmartAciOnlyStrategy.next. simpl.
    nan_tests (close dt).
    destruct so; [eexists; eexists; split; reflexivity|].
    split_tests; eexists; eexists; split; reflexivity.
  - intros p ln dt b [so l] H Hz.
    unfold SmartAciAndTakeProfitStrategy.next, Py.truediv. simpl.
    nan_tests (close dt).
    destruct so; [eexists; eexists; split; reflexivity|].
    unfold Py.eq in Hz.
    destruct (position_bool (position b)); simpl.
    + rewrite Hz. simpl.
      pose proof (div_nan_l (close dt - price (position b))
                    (price (position b)) (sub_nan_l _ _ H)) as Hn.
      nan_tests ((close dt - price (position b)) / price (position b))%float.
      eexists; eexists; split; reflexivity.
    + split_tests; eexists; eexists; split; reflexivity.
  - intros p dt b [so l] H Ho Hg Hc size_to_buy. simpl in *. subst so.
    split; [apply div_nan_r; exact H|].
    unfold FixedAutoInvestStrategy.next, Py.truediv. simpl.
    unfold gate_fires in Hg. rewrite Hg, Hc.
    destruct (nan_compares_false (close dt) 0 H) as (_ & _ & _ & _ & E & _).
    unfold Py.eq in E. rewrite E. simpl.
    eexists; eexists; split; reflexivity.
Qed.

Lemma nan_close_in_periodic_strategies_witness :
  (exists s' out,
      SmartAciOnlyStrategy.next SmartAciOnlyStrategy.default_params
        (SmartAciOnlyStrategy.mkLines 1.5) (bar_at 2021 3 1 nan)
        (out_of_market 200000) SmartAciOnlyStrategy.init = Py.Ok (s', out) /\
      submitted out = []) /\
  (exists s' out,
      SmartAciAndTakeProfitStrategy.next
        SmartAciAndTakeProfitStrategy.default_params
        (SmartAciAndTakeProfitStrategy.mkLines 1.5) (bar_at 2021 3 1 nan)
        (holding 4000 1.25 95000) SmartAciAndTakeProfitStrategy.init =
      Py.Ok (s', out) /\
      submitted out = []) /\
  is_number (2000.0 / nan)%float = false /\
  (exists s' out,
      FixedAutoInvestStrategy.next FixedAutoInvestStrategy.default_params
        (bar_at 2021 3 1 nan) (out_of_market 200000)
        FixedAutoInvestStrategy.init = Py.Ok (s', out) /\
      submitted out = [buy (Some (2000.0 / nan)%float)]).
Proof.
  destruct nan_close_in_periodic_strategies as (H3 & H2 & H9).
  split; [|split].
  - apply H3. vm_compute; reflexivity.
  - apply H2; vm_compute; reflexivity.
  - apply (H9 FixedAutoInvestStrategy.default_params (bar_at 2021 3 1 nan)
              (out_of_market 200000) FixedAutoInvestStrategy.init);
      vm_compute; reflexivity.
Defined.

(** ** The last sell price over a run *)


(** ** The two crossover strategies *)

(** X15.  [DualMACrossoverStrategy] and [MacdStrategy] test the position and
    the crossover in opposite orders but decide alike: on the same crossover
    value, position and tracked order they submit the same orders and track
    the same order afterwards. *)
Theorem crossover_strategies_decide_alike
    (p1 : DualMACrossoverStrategy.Params) (p2 : MacdStrategy.Params)
    (x : float) (dt : Data) (b : Broker) (s : Tracking) :
  submitted (snd (DualMACrossoverStrategy.next p1
                    (DualMACrossoverStrategy.mkLines x) dt b s)) =
  submitted (snd (MacdStrategy.next p2 (MacdStrategy.mkLines x) dt b s)) /\
  order (fst (DualMACrossoverStrategy.next p1
                (DualMACrossoverStrategy.mkLines x) dt b s)) =
  order (fst (MacdStrategy.next p2 (MacdStrategy.mkLines x) dt b s)).
Proof.
  destruct s as [so].
  unfold DualMACrossoverStrategy.next, MacdStrategy.next. simpl.
  destruct so; [split; reflexivity|].
  destruct (position_bool (position b)); simpl;
    split_tests; split; reflexivity.
Qed.

(** ** A band of zero width *)

(** X16.  [BollingerBandsStrategy] buys on close <= lower band and sells on
    close >= middle band, both tests inclusive: on a bar whose close, a
    number, equals both bands (bands of zero width), with no order in
    flight, it always trades, buying when there is no position and closing
    the position when there is one. *)
Theorem zero_width_band_always_trades
    (p : BollingerBandsStrategy.Params) (ln : BollingerBandsStrategy.Lines)
    (dt : Data) (b : Broker) (s : BollingerBandsStrategy.State) :
  order s = None ->
  is_number (close dt) = true ->
  BollingerBandsStrategy.bot ln = close dt ->
  BollingerBandsStrategy.mid ln = close dt ->
  submitted (snd (BollingerBandsStrategy.next p ln dt b s)) =
  [if position_bool (position b) then close_position else buy None].
Proof.
  destruct s as [so]. simpl. intros -> Hn Hbot Hmid.
  pose proof (le_refl _ Hn) as R. unfold Py.le in R.
  unfold BollingerBandsStrategy.next, Py.ge, Py.le. simpl.
  rewrite Hbot, Hmid, !R.
  destruct (position_bool (position b)); reflexivity.
Qed.

Lemma zero_width_band_always_trades_witness :
  submitted (snd (BollingerBandsStrategy.next
                    BollingerBandsStrategy.default_params
                    (BollingerBandsStrategy.mkLines 1.25 1.25)
                    (bar_at 2021 3 1 1.25) (holding 980 1.25 2000)
                    BollingerBandsStrategy.init)) = [close_position].
Proof.
  apply (zero_width_band_always_trades BollingerBandsStrategy.default_params
           (BollingerBandsStrategy.mkLines 1.25 1.25) (bar_at 2021 3 1 1.25)
           (holding 980 1.25 2000) BollingerBandsStrategy.init);
    vm_compute; reflexivity.
Defined.
